(** * Frame extraction server ([src/python/server2.py])

    Shallow embedding of the two FastAPI endpoints of the HoopLab frame
    extraction server: [extract_frames_streaming] (called by the
    [/extract_frames/] route) and [extract_frames_fast] (the
    [/extract_frames_fast/] route).

    - Python integers are [Z]; [//] and [%] are floor division and floor
      modulo, which are [Z.div] and [Z.modulo], except that Python raises
      [ZeroDivisionError] on a zero divisor ([py_floordiv], [py_mod]).
    - Python floats ([fps], timestamps) are modelled by exact rationals [Q].
    - OpenCV is external: the decoder ([video_open]) and the JPEG encoder
      ([imencode]) are parameters of the development.
    - The zip archive is the list of its entries in write order.
    - The temporary file and the decoder reads are effects threaded through
      a small state-and-exception monad [M]. *)

From Stdlib Require Import ZArith QArith List String Ascii Lia Permutation.
From Stdlib Require Import DecimalString DecimalN.
Import ListNotations.
Open Scope string_scope.
Open Scope Z_scope.
Open Scope list_scope.
Set Warnings "-register-all".

(** ** Python values *)

Inductive exc :=
| HTTPException (status_code : Z) (detail : string)
| ZeroDivisionError
| FileNotFoundError.

Inductive result (A : Type) :=
| Ok (a : A)
| Err (e : exc).
Arguments Ok {A} a.
Arguments Err {A} e.

(** JSON values as [json.dumps] sees the metadata dicts. *)
Inductive json :=
| JInt (z : Z)
| JFloat (q : Q)
| JStr (s : string)
| JArr (l : list json)
| JObj (l : list (string * json)).

Fixpoint assoc_get (k : string) (l : list (string * json)) : option json :=
  match l with
  | [] => None
  | (k', v) :: r => if String.eqb k k' then Some v else assoc_get k r
  end.

Definition json_get (k : string) (j : json) : option json :=
  match j with JObj l => assoc_get k l | _ => None end.

Definition json_nth (i : nat) (j : json) : option json :=
  match j with JArr l => nth_error l i | _ => None end.

(** [a // b] and [a % b] on Python ints. *)
Definition py_floordiv (a b : Z) : result Z :=
  if b =? 0 then Err ZeroDivisionError else Ok (a / b).

Definition py_mod (a b : Z) : result Z :=
  if b =? 0 then Err ZeroDivisionError else Ok (a mod b).

(** [f"{n:0wd}"]: decimal digits, zero-padded on the left to width [w]
    (after the sign for negative numbers). *)
Fixpoint zero_pad (k : nat) (s : string) : string :=
  match k with
  | O => s
  | S k' => String "0" (zero_pad k' s)
  end.

Definition digits (n : N) : string := NilZero.string_of_uint (N.to_uint n).

Definition format_0d (w : nat) (z : Z) : string :=
  if z <? 0 then
    let d := digits (Z.to_N (- z)) in
    String.append "-" (zero_pad (w - 1 - String.length d) d)
  else
    let d := digits (Z.to_N z) in
    zero_pad (w - String.length d) d.

(** [f"frame_{idx:0wd}.jpg"] *)
Definition frame_name (w : nat) (idx : Z) : string :=
  String.append "frame_" (String.append (format_0d w idx) ".jpg").

(** ** [io.BytesIO] and the response generators *)

(** An [io.BytesIO]: its contents and its current position. *)
Record bytes_io := mkBytesIO {
  bio_data : list Byte.byte;
  bio_pos : nat
}.

(** [buf.read(size)]: at most [size] bytes from the position on, which then
    moves past them; at or past the end it returns [b''] *)
Definition bio_read (size : nat) (b : bytes_io) : list Byte.byte * bytes_io :=
  let chunk := firstn size (skipn (bio_pos b) (bio_data b)) in
  (chunk, mkBytesIO (bio_data b) (bio_pos b + List.length chunk)).

(** [buf.seek(0)] *)
Definition bio_seek0 (b : bytes_io) : bytes_io := mkBytesIO (bio_data b) 0.

(** The [generate()] closures of lines 144-149 and 237-242, which
    [StreamingResponse] runs to exhaustion: the chunks they yield, in order.
    [while True: chunk = buf.read(size); if not chunk: break; yield chunk].
    Each iteration that does not break consumes at least one byte, so
    [generate] gives the loop one iteration more than there are bytes left,
    which is enough for it to reach its [break]. *)
Fixpoint generate_loop (fuel size : nat) (b : bytes_io) : list (list Byte.byte) :=
  match fuel with
  | O => []
  | S fuel' =>
      let (chunk, b') := bio_read size b in
      match chunk with
      | [] => []
      | _ => chunk :: generate_loop fuel' size b'
      end
  end.

Definition generate (size : nat) (b : bytes_io) : list (list Byte.byte) :=
  generate_loop (S (List.length (bio_data b) - bio_pos b)) size b.

(** ** [Path(file.filename).stem] (lines 151 and 244)

    [pathlib.PurePosixPath] as in CPython 3.12. *)

(** [s.split('/')] *)
Fixpoint split_slash (s : string) : list string :=
  match s with
  | EmptyString => [""]
  | String c s' =>
      let parts := split_slash s' in
      if Ascii.eqb c "/"%char then "" :: parts
      else match parts with
           | p :: ps => String c p :: ps
           | [] => [String c ""]
           end
  end.

(** [PurePath.name]: the last of the parts [x] of [s.split('/')] with
    [x and x != '.'], or [''] when there is none. *)
Definition path_name (s : string) : string :=
  last (filter (fun x => negb (String.eqb x "") && negb (String.eqb x "."))
               (split_slash s)) "".

(** [s.rfind(c)], with [None] for [-1]. *)
Fixpoint rfind_char (c : ascii) (s : string) : option nat :=
  match s with
  | EmptyString => None
  | String a s' =>
      match rfind_char c s' with
      | Some i => Some (S i)
      | None => if Ascii.eqb a c then Some 0%nat else None
      end
  end.

(** [PurePath.stem]: [name[:i]] where [i = name.rfind('.')] and
    [0 < i < len(name) - 1], else [name]. *)
Definition path_stem (p : string) : string :=
  let name := path_name p in
  match rfind_char "."%char name with
  | Some i =>
      if Nat.ltb 0 i && Nat.ltb i (String.length name - 1)
      then String.substring 0 i name
      else name
  | None => name
  end.

(** ** The state-and-exception monad *)

Section Server.

(** [vbytes]: uploaded video bytes; [frame]: a decoded image; [jpeg]: the
    bytes of an encoded image. *)
Context {vbytes frame jpeg : Type}.

(** [cv2.imencode('.jpg', frame, [IMWRITE_JPEG_QUALITY, quality,
    IMWRITE_JPEG_OPTIMIZE, optimize])], assumed total (a decoded frame
    always encodes). *)
Variable imencode : Z -> Z -> frame -> jpeg.

(** What a [cv2.VideoCapture] made from a file with the given contents
    reports: [None] when [isOpened()] is false. *)
Record capture := mkCapture {
  cap_fps : Q;              (* cap.get(CAP_PROP_FPS) *)
  cap_frame_count : Z;      (* int(cap.get(CAP_PROP_FRAME_COUNT)) *)
  cap_width : Z;            (* int(cap.get(CAP_PROP_FRAME_WIDTH)) *)
  cap_height : Z;           (* int(cap.get(CAP_PROP_FRAME_HEIGHT)) *)
  cap_reads : list (option frame)
    (* successive results of cap.read(): [Some f] is (True, f), [None] is a
       failed read; once the list is exhausted cap.read() returns False *)
}.

Variable video_open : vbytes -> option capture.

(** Entries of the in-memory zip: [zipf.writestr(name, data)]. *)
Inductive payload :=
| PBytes (b : jpeg)
| PJson (j : json).

Definition entry : Type := string * payload.
Definition archive : Type := list entry.

(** [ZipFile.read(name)]: the last entry written under [name]. *)
Definition zip_read (name : string) (a : archive) : option payload :=
  match find (fun e => String.eqb (fst e) name) (rev a) with
  | Some (_, p) => Some p
  | None => None
  end.

(** The world a request acts on: the file system (path, contents) and the
    number of [cap.read()] calls made so far. *)
Record world := mkWorld {
  files : list (string * vbytes);
  decoded : nat
}.

Definition M (A : Type) : Type := world -> result A * world.

Definition ret {A} (a : A) : M A := fun w => (Ok a, w).

Definition bind {A B} (m : M A) (k : A -> M B) : M B :=
  fun w => match m w with
           | (Ok a, w') => k a w'
           | (Err e, w') => (Err e, w')
           end.

Definition throw {A} (e : exc) : M A := fun w => (Err e, w).

Definition lift {A} (r : result A) : M A := fun w => (r, w).

Notation "x <- m ;; k" := (bind m (fun x => k))
  (at level 61, m at next level, right associativity).
Notation "m ;;; k" := (bind m (fun _ => k))
  (at level 61, right associativity).

(** [try: body finally: fin] *)
Definition try_finally {A} (body : M A) (fin : M unit) : M A :=
  fun w => let (r, w1) := body w in
           let (rf, w2) := fin w1 in
           match rf with
           | Ok _ => (r, w2)
           | Err e => (Err e, w2)
           end.

(** [try: m except: pass] *)
Definition try_except_pass (m : M unit) : M unit :=
  fun w => match m w with
           | (Ok u, w') => (Ok u, w')
           | (Err _, w') => (Ok tt, w')
           end.

Definition remove_path (p : string) (fs : list (string * vbytes))
  : list (string * vbytes) :=
  filter (fun e => negb (String.eqb (fst e) p)) fs.

(** [NamedTemporaryFile(delete=False)] at path [p], then [write(data)]. *)
Definition write_file (p : string) (data : vbytes) : M unit :=
  fun w => (Ok tt, mkWorld ((p, data) :: remove_path p (files w)) (decoded w)).

(** [Path(p).unlink()] *)
Definition unlink (p : string) : M unit :=
  fun w => if existsb (fun e => String.eqb (fst e) p) (files w)
           then (Ok tt, mkWorld (remove_path p (files w)) (decoded w))
           else (Err FileNotFoundError, w).

(** [cv2.VideoCapture(p)] followed by [isOpened()]. *)
Definition open_capture (p : string) : M (option capture) :=
  fun w => (Ok (match find (fun e => String.eqb (fst e) p) (files w) with
                | Some (_, d) => video_open d
                | None => None
                end), w).

(** One [cap.read()] call. *)
Definition tick : M unit := fun w => (Ok tt, mkWorld (files w) (S (decoded w))).

(** [await loop.run_in_executor(ex, f, x)]: the call is one task of the
    pool; the worker that picks it up runs [f x] to completion and the
    awaiting coroutine resumes with its return value. *)
Record executor := mkExecutor { max_workers : nat }.

Definition run_in_executor {A B} (ex : executor) (f : A -> B) (x : A) : M B :=
  ret (f x).

(** ** [process_frame_batch] (lines 19-30) *)

(** Runs in one pool thread: a sequential loop over the batch. *)
Definition process_frame_batch (frames : list (Z * frame)) (quality : Z)
  : list entry :=
  map (fun '(frame_idx, f) =>
         (frame_name 6 frame_idx, PBytes (imencode quality 1 f))) frames.

(** ** [extract_frames_streaming] (lines 32-121) *)

Definition executor_default : executor := mkExecutor 4.

Definition batch_size : Z := 50.

(** Local variables of the [while True] loop of lines 57-86. *)
Record loop_state := mkLoopState {
  frame_idx : Z;
  extracted_count : Z;
  frame_batch : list (Z * frame);
  zipf : archive
}.

(** The [while True] loop of lines 62-86, one iteration per [cap.read()]. *)
Fixpoint streaming_loop (ex : executor) (quality skip_frames : Z)
    (reads : list (option frame)) (s : loop_state) : M loop_state :=
  match reads with
  | [] | None :: _ => tick ;;; ret s
  | Some frame :: reads' =>
      tick ;;;
      r <- lift (py_mod (frame_idx s) (skip_frames + 1)) ;;
      s1 <- (if r =? 0 then
               let b := frame_batch s ++ [(extracted_count s, frame)] in
               let c := extracted_count s + 1 in
               if Z.of_nat (List.length b) >=? batch_size then
                 processed <- run_in_executor ex
                                (fun b => process_frame_batch b quality) b ;;
                 ret (mkLoopState (frame_idx s) c [] (zipf s ++ processed))
               else ret (mkLoopState (frame_idx s) c b (zipf s))
             else ret s) ;;
      streaming_loop ex quality skip_frames reads'
        (mkLoopState (frame_idx s1 + 1) (extracted_count s1)
                     (frame_batch s1) (zipf s1))
  end.

Definition extract_frames_streaming (ex : executor) (temp_video_path : string)
    (video_data : vbytes) (quality skip_frames : Z) : M archive :=
  write_file temp_video_path video_data ;;;
  try_finally
    (ocap <- open_capture temp_video_path ;;
     match ocap with
     | None => throw (HTTPException 400 "Could not open video file")
     | Some cap =>
         s <- streaming_loop ex quality skip_frames (cap_reads cap)
                (mkLoopState 0 0 [] []) ;;
         (* Process remaining frames *)
         z <- (match frame_batch s with
               | [] => ret (zipf s)
               | b => processed <- run_in_executor ex
                                     (fun b => process_frame_batch b quality) b ;;
                      ret (zipf s ++ processed)
               end) ;;
         let metadata := JObj [("fps", JFloat (cap_fps cap));
                               ("total_frames", JInt (cap_frame_count cap));
                               ("extracted_frames", JInt (extracted_count s));
                               ("width", JInt (cap_width cap));
                               ("height", JInt (cap_height cap));
                               ("skip_frames", JInt skip_frames)] in
         ret (z ++ [("metadata.json", PJson metadata)])
     end)
    (try_except_pass (unlink temp_video_path)).

(** The [/extract_frames/] route hands the archive built by
    [extract_frames_streaming], with the pool [executor], to the response. *)
Definition extract_frames_zip (temp_video_path : string) (video_data : vbytes)
    (quality skip_frames : Z) : M archive :=
  extract_frames_streaming executor_default temp_video_path video_data
    quality skip_frames.

(** ** [extract_frames_fast] (lines 159-250) *)

(** The [while True] loop of lines 191-207: the value is the final
    [(extracted_count, zipf)]. *)
Fixpoint fast_loop (quality max_frames skip_factor : Z)
    (reads : list (option frame)) (frame_idx extracted_count : Z)
    (zipf : archive) : M (Z * archive) :=
  match reads with
  | [] | None :: _ => tick ;;; ret (extracted_count, zipf)
  | Some frame :: reads' =>
      tick ;;;
      if extracted_count >=? max_frames then ret (extracted_count, zipf)
      else
        r <- lift (py_mod frame_idx skip_factor) ;;
        if r =? 0 then
          fast_loop quality max_frames skip_factor reads' (frame_idx + 1)
            (extracted_count + 1)
            (zipf ++ [(frame_name 4 extracted_count,
                       PBytes (imencode quality 0 frame))])
        else
          fast_loop quality max_frames skip_factor reads' (frame_idx + 1)
            extracted_count zipf
  end.

(** [(i * skip_factor) / fps if fps > 0 else 0.0] *)
Definition fast_timestamp (fps : Q) (skip_factor i : Z) : Q :=
  if Qle_bool fps 0 then 0 else inject_Z (i * skip_factor) / fps.

(** [range(n)] *)
Fixpoint zrange_from (start : Z) (n : nat) : list Z :=
  match n with
  | O => []
  | S n' => start :: zrange_from (start + 1) n'
  end.

Definition py_range (n : Z) : list Z := zrange_from 0 (Z.to_nat n).

Definition extract_frames_fast (temp_video_path : string) (video_data : vbytes)
    (max_frames quality : Z) : M archive :=
  write_file temp_video_path video_data ;;;
  try_finally
    (ocap <- open_capture temp_video_path ;;
     match ocap with
     | None => throw (HTTPException 400 "Could not open video file")
     | Some cap =>
         let total_frames := cap_frame_count cap in
         let fps := cap_fps cap in
         q <- lift (py_floordiv total_frames max_frames) ;;
         let skip_factor := Z.max 1 q in
         res <- fast_loop quality max_frames skip_factor (cap_reads cap) 0 0 [] ;;
         let '(extracted_count, zipf) := res in
         let metadata :=
           JObj [("fps", JFloat fps);
                 ("total_frames", JInt total_frames);
                 ("extracted_frames", JInt extracted_count);
                 ("width", JInt (cap_width cap));
                 ("height", JInt (cap_height cap));
                 ("frames",
                  JArr (map (fun i =>
                               JObj [("frame_index", JInt i);
                                     ("timestamp", JFloat (fast_timestamp fps skip_factor i));
                                     ("filename", JStr (frame_name 4 i))])
                            (py_range extracted_count)))] in
         ret (zipf ++ [("metadata.json", PJson metadata)])
     end)
    (try_except_pass (unlink temp_video_path)).

(** ** The responses (lines 119-157 and 235-250) *)

(** The bytes that [zipfile.ZipFile(buf, 'w', ZIP_DEFLATED,
    compresslevel=level)] leaves in [buf] once the listed entries are
    written and the archive is closed. *)
Variable zip_serialize : Z -> archive -> list Byte.byte.

(** A [StreamingResponse]: the chunks of its body, its media type and its
    headers. *)
Record response := mkResponse {
  resp_body : list (list Byte.byte);
  resp_media_type : string;
  resp_headers : list (string * string)
}.

(** The [/extract_frames/] route, given [file.filename] and the uploaded
    bytes: the archive of [extract_frames_streaming] (compresslevel 6),
    rewound, streamed in 8 KiB chunks. *)
Definition extract_frames_zip_response (filename temp_video_path : string)
    (video_data : vbytes) (quality skip_frames : Z) : M response :=
  z <- extract_frames_zip temp_video_path video_data quality skip_frames ;;
  let data := zip_serialize 6 z in
  let zip_buffer := bio_seek0 (mkBytesIO data (List.length data)) in
  ret (mkResponse (generate 8192 zip_buffer) "application/zip"
         [("Content-Disposition",
           String.append "attachment; filename="
             (String.append (path_stem filename) "_frames.zip"))]).

(** The [/extract_frames_fast/] route: the archive of the fast loop
    (compresslevel 1), rewound, streamed in 16 KiB chunks. *)
Definition extract_frames_fast_response (filename temp_video_path : string)
    (video_data : vbytes) (max_frames quality : Z) : M response :=
  z <- extract_frames_fast temp_video_path video_data max_frames quality ;;
  let data := zip_serialize 1 z in
  let zip_buffer := bio_seek0 (mkBytesIO data (List.length data)) in
  ret (mkResponse (generate 16384 zip_buffer) "application/zip"
         [("Content-Disposition",
           String.append "attachment; filename="
             (String.append (path_stem filename) "_frames_fast.zip"))]).

(** ** Specification-side helpers *)

(** [c in s] for a character [c]. *)
Fixpoint str_mem (c : ascii) (s : string) : bool :=
  match s with
  | EmptyString => false
  | String a s' => Ascii.eqb a c || str_mem c s'
  end.


(** Pairs each element with its position, counting from [i]: the
    [source_index] of decoded frames, the [kept_index] of kept ones. *)
Fixpoint enum_from {A : Type} (i : Z) (l : list A) : list (Z * A) :=
  match l with
  | [] => []
  | x :: l' => (i, x) :: enum_from (i + 1) l'
  end.

(** The pairs whose index is a multiple of [d]. *)
Definition multiples_of {A : Type} (d : Z) (l : list (Z * A)) : list (Z * A) :=
  filter (fun '(i, _) => i mod d =? 0) l.

(** Frame entries of the fast endpoint: [frame_%04d.jpg] from the kept
    index, encoded without the optimize flag. *)
Definition fast_entries (quality : Z) (l : list (Z * frame)) : list entry :=
  map (fun '(i, f) => (frame_name 4 i, PBytes (imencode quality 0 f))) l.

(** The per-frame records of the fast metadata. *)
Definition fast_frame_record (fps : Q) (skip_factor i : Z) : json :=
  JObj [("frame_index", JInt i);
        ("timestamp", JFloat (fast_timestamp fps skip_factor i));
        ("filename", JStr (frame_name 4 i))].

(** [frames[i].timestamp] of a metadata object. *)
Definition frame_timestamp (meta : json) (i : nat) : option json :=
  match json_get "frames" meta with
  | Some fr => match json_nth i fr with
               | Some r => json_get "timestamp" r
               | None => None
               end
  | None => None
  end.

(** An archive made of frame entries named [frame_%0wd.jpg] followed by one
    [metadata.json] entry whose [extracted_frames] is their number. *)
Definition frames_then_metadata (width : nat) (arch : archive) : Prop :=
  exists fes meta,
    arch = fes ++ [("metadata.json", PJson meta)]
    /\ Forall (fun e => exists i, fst e = frame_name width i) fes
    /\ ~ In "metadata.json" (map fst fes)
    /\ json_get "extracted_frames" meta = Some (JInt (Z.of_nat (List.length fes))).

Lemma process_frame_batch_app l1 l2 q :
  process_frame_batch (l1 ++ l2) q = process_frame_batch l1 q ++ process_frame_batch l2 q.
Proof. apply map_app. Qed.

Ltac close_keep HK Hc :=
  rewrite HK; unfold process_frame_batch; cbn [enum_from map];
  rewrite ?map_app; cbn [map]; rewrite <- ?app_assoc; cbn [app];
  split; [reflexivity | rewrite Hc; cbn [List.length]; lia].

Lemma streaming_loop_ok ex q k reads : forall s w s' w',
  streaming_loop ex q k reads s w = (Ok s', w') ->
  exists K, zipf s' ++ process_frame_batch (frame_batch s') q =
            zipf s ++ process_frame_batch (frame_batch s) q
                   ++ process_frame_batch (enum_from (extracted_count s) K) q
         /\ extracted_count s' = extracted_count s + Z.of_nat (List.length K).
Proof.
  induction reads as [|[f|] reads IH]; intros s w s' w' H; cbn in H.
  - inversion H; subst. exists []. cbn. rewrite !app_nil_r. split; [reflexivity|lia].
  - unfold py_mod in H. destruct (k + 1 =? 0); [discriminate|].
    destruct (frame_idx s mod (k + 1) =? 0).
    + destruct (Z.of_nat _ >=? batch_size);
        apply IH in H; destruct H as [K [HK Hc]]; cbn in HK, Hc;
        exists (f :: K); close_keep HK Hc.
    + apply IH in H. destruct H as [K [HK Hc]]. cbn in HK, Hc.
      exists K. rewrite HK. split; [reflexivity | lia].
  - inversion H; subst. exists []. cbn. rewrite !app_nil_r. split; [reflexivity|lia].
Qed.

Lemma streaming_loop_frames ex q k fs stop :
  k + 1 <> 0 -> (stop = [] \/ exists r, stop = None :: r) ->
  forall s w, exists s',
    streaming_loop ex q k (map Some fs ++ stop) s w =
      (Ok s', mkWorld (files w) (List.length fs + S (decoded w)))
    /\ zipf s' ++ process_frame_batch (frame_batch s') q =
       zipf s ++ process_frame_batch (frame_batch s) q
         ++ process_frame_batch (enum_from (extracted_count s)
              (map snd (multiples_of (k + 1) (enum_from (frame_idx s) fs)))) q
    /\ extracted_count s' = extracted_count s
         + Z.of_nat (List.length (multiples_of (k + 1) (enum_from (frame_idx s) fs)))
    /\ frame_idx s' = frame_idx s + Z.of_nat (List.length fs).
Proof.
  intros Hk Hstop. induction fs as [|f fs IH]; intros s [fl dc].
  - exists s. destruct Hstop as [-> | [r ->]]; cbn;
      (split; [reflexivity|]); rewrite ?app_nil_r; (split; [reflexivity|]); split; lia.
  - cbn [map app streaming_loop]. unfold py_mod.
    replace (k + 1 =? 0) with false by (symmetry; apply Z.eqb_neq; exact Hk).
    unfold multiples_of in *. cbn [enum_from filter].
    cbn [bind tick lift ret].
    destruct (frame_idx s mod (k + 1) =? 0) eqn:Hm.
    + destruct (Z.of_nat (List.length (frame_batch s ++ [(extracted_count s, f)]))
                  >=? batch_size);
        cbn [bind tick lift ret run_in_executor frame_idx extracted_count frame_batch zipf];
        match goal with
        | |- context [streaming_loop ex q k _ ?s1 ?w1] =>
            destruct (IH s1 w1) as [s' [E [Hz [Hc Hi]]]]
        end;
        rewrite E; cbn [frame_idx extracted_count frame_batch zipf files decoded] in Hz, Hc, Hi;
        exists s'; (split; [f_equal; f_equal; cbn [List.length files decoded]; lia|]);
        rewrite Hz; cbn [enum_from map List.length];
        unfold process_frame_batch; rewrite ?map_app; cbn [map];
        rewrite <- ?app_assoc; cbn [app];
        (split; [reflexivity|]); split; lia.
    + cbn [bind tick lift ret frame_idx extracted_count frame_batch zipf].
      match goal with
      | |- context [streaming_loop ex q k _ ?s1 ?w1] =>
          destruct (IH s1 w1) as [s' [E [Hz [Hc Hi]]]]
      end.
      rewrite E. cbn [frame_idx extracted_count frame_batch zipf files decoded] in Hz, Hc, Hi.
      exists s'. split; [f_equal; f_equal; cbn [List.length files decoded]; lia|].
      destruct s as [i c b z]. cbn [frame_idx extracted_count frame_batch zipf] in *.
      rewrite Hz. cbn [List.length]. split; [reflexivity|]. split; lia.
Qed.

(** ** Cleanup: the [finally] clause *)

Lemma remove_path_idem p l : remove_path p (remove_path p l) = remove_path p l.
Proof.
  unfold remove_path. induction l as [|e l IH]; cbn; [reflexivity|].
  destruct (String.eqb (fst e) p) eqn:E; cbn; [exact IH|]. rewrite E. cbn. now rewrite IH.
Qed.

Lemma remove_path_absent p l :
  existsb (fun e => String.eqb (fst e) p) l = false -> remove_path p l = l.
Proof.
  unfold remove_path. induction l as [|e l IH]; cbn; [reflexivity|].
  destruct (String.eqb (fst e) p); cbn; [discriminate|]. intro H. now rewrite IH.
Qed.

Lemma remove_path_gone p l : ~ In p (map fst (remove_path p l)).
Proof.
  unfold remove_path. induction l as [|e l IH]; cbn; [tauto|].
  destruct (String.eqb (fst e) p) eqn:E; cbn; [exact IH|].
  intros [H | H]; [|exact (IH H)]. subst. rewrite String.eqb_refl in E. discriminate.
Qed.

Lemma cleanup_removes p w :
  try_except_pass (unlink p) w = (Ok tt, mkWorld (remove_path p (files w)) (decoded w)).
Proof.
  unfold try_except_pass, unlink.
  destruct (existsb _ (files w)) eqn:E; [reflexivity|].
  rewrite (remove_path_absent _ _ E). now destruct w.
Qed.

Lemma try_finally_cleanup {A} (body : M A) p w :
  try_finally body (try_except_pass (unlink p)) w =
    (fst (body w), mkWorld (remove_path p (files (snd (body w)))) (decoded (snd (body w)))).
Proof.
  unfold try_finally. destruct (body w) as [r w1]. now rewrite cleanup_removes.
Qed.

Lemma open_written p data w :
  open_capture p (mkWorld ((p, data) :: remove_path p (files w)) (decoded w)) =
    (Ok (video_open data), mkWorld ((p, data) :: remove_path p (files w)) (decoded w)).
Proof. unfold open_capture. cbn. now rewrite String.eqb_refl. Qed.

Lemma flush_remaining ex q s w :
  (match frame_batch s with
   | [] => ret (zipf s)
   | b => processed <- run_in_executor ex (fun b => process_frame_batch b q) b ;;
          ret (zipf s ++ processed)
   end) w = (Ok (zipf s ++ process_frame_batch (frame_batch s) q), w).
Proof. destruct (frame_batch s); cbn; [now rewrite app_nil_r | reflexivity]. Qed.

Lemma extract_frames_streaming_frames ex tmp data q k fps cnt wd ht fs stop w :
  0 <= k -> (stop = [] \/ exists r, stop = None :: r) ->
  video_open data = Some (mkCapture fps cnt wd ht (map Some fs ++ stop)) ->
  extract_frames_streaming ex tmp data q k w =
    (Ok (process_frame_batch
           (enum_from 0 (map snd (multiples_of (k + 1) (enum_from 0 fs)))) q ++
         [("metadata.json",
           PJson (JObj [("fps", JFloat fps); ("total_frames", JInt cnt);
                        ("extracted_frames",
                         JInt (Z.of_nat (List.length (multiples_of (k + 1) (enum_from 0 fs)))));
                        ("width", JInt wd); ("height", JInt ht);
                        ("skip_frames", JInt k)]))]),
     mkWorld (remove_path tmp (files w)) (List.length fs + S (decoded w))).
Proof.
  intros Hk Hstop Hopen. unfold extract_frames_streaming.
  unfold bind at 1. cbn [write_file].
  rewrite try_finally_cleanup.
  match goal with
  | |- context [fst (?b ?w0)] =>
      assert (Hb : b w0 =
        (Ok (process_frame_batch
               (enum_from 0 (map snd (multiples_of (k + 1) (enum_from 0 fs)))) q ++
             [("metadata.json",
               PJson (JObj [("fps", JFloat fps); ("total_frames", JInt cnt);
                            ("extracted_frames",
                             JInt (Z.of_nat (List.length (multiples_of (k + 1) (enum_from 0 fs)))));
                            ("width", JInt wd); ("height", JInt ht);
                            ("skip_frames", JInt k)]))]),
         mkWorld ((tmp, data) :: remove_path tmp (files w)) (List.length fs + S (decoded w))));
      [| rewrite Hb; cbn [fst snd files decoded]; unfold remove_path at 1; cbn;
         rewrite String.eqb_refl; cbn; fold (remove_path tmp (remove_path tmp (files w)));
         now rewrite remove_path_idem]
  end.
  unfold bind at 1. rewrite open_written, Hopen.
  cbn [cap_reads cap_fps cap_frame_count cap_width cap_height].
  destruct (streaming_loop_frames ex q k fs stop ltac:(lia) Hstop
              (mkLoopState 0 0 [] []) (mkWorld ((tmp, data) :: remove_path tmp (files w)) (decoded w)))
    as [s' [E [Hz [Hc _]]]].
  cbn [zipf frame_batch extracted_count frame_idx files decoded] in E, Hz, Hc.
  unfold bind at 1. rewrite E. unfold bind at 1. rewrite flush_remaining.
  cbn [ret]. rewrite Hz, Hc. reflexivity.
Qed.

(** ** Indices, multiples and counting *)

Lemma enum_from_app {A : Type} (s : Z) (l1 l2 : list A) :
  enum_from s (l1 ++ l2) = enum_from s l1 ++ enum_from (s + Z.of_nat (List.length l1)) l2.
Proof.
  revert s. induction l1 as [|x l1 IH]; intro s; cbn.
  - now rewrite Z.add_0_r.
  - rewrite IH. do 3 f_equal. lia.
Qed.

Lemma length_enum_from {A : Type} (s : Z) (l : list A) :
  List.length (enum_from s l) = List.length l.
Proof. revert s. induction l as [|x l IH]; intro s; cbn; [reflexivity|]. now rewrite IH. Qed.

Lemma enum_from_fst {A : Type} (s : Z) (l : list A) :
  map fst (enum_from s l) = zrange_from s (List.length l).
Proof. revert s. induction l as [|x l IH]; intro s; cbn; [reflexivity|]. now rewrite IH. Qed.

Lemma multiples_of_fst {A : Type} (d s : Z) (l : list A) :
  map fst (multiples_of d (enum_from s l)) =
    filter (fun i => i mod d =? 0) (zrange_from s (List.length l)).
Proof.
  unfold multiples_of. revert s. induction l as [|x l IH]; intro s; cbn; [reflexivity|].
  destruct (s mod d =? 0); cbn; now rewrite IH.
Qed.

Lemma in_zrange_from i s n : In i (zrange_from s n) <-> s <= i < s + Z.of_nat n.
Proof.
  revert s. induction n as [|n IH]; intro s; cbn; [lia|].
  rewrite IH. lia.
Qed.

Lemma multiples_of_one {A : Type} (s : Z) (l : list A) :
  multiples_of 1 (enum_from s l) = enum_from s l.
Proof.
  unfold multiples_of. revert s. induction l as [|x l IH]; intro s; cbn; [reflexivity|].
  rewrite Z.mod_1_r. cbn. now rewrite IH.
Qed.

Lemma ceil_div_step n d :
  0 <= n -> 0 < d ->
  (n + 1 + d - 1) / d = (n + d - 1) / d + (if n mod d =? 0 then 1 else 0).
Proof.
  intros Hn Hd. pose proof (Z.div_mod n d ltac:(lia)) as Hdm.
  pose proof (Z.mod_pos_bound n d Hd) as Hb.
  destruct (n mod d =? 0) eqn:E.
  - apply Z.eqb_eq in E.
    rewrite <- (Z.div_unique (n + 1 + d - 1) d (n / d + 1) 0) by lia.
    rewrite <- (Z.div_unique (n + d - 1) d (n / d) (d - 1)) by lia.
    reflexivity.
  - apply Z.eqb_neq in E.
    rewrite <- (Z.div_unique (n + 1 + d - 1) d (n / d + 1) (n mod d)) by lia.
    rewrite <- (Z.div_unique (n + d - 1) d (n / d + 1) (n mod d - 1)) by lia.
    lia.
Qed.

Lemma count_multiples {A : Type} (d : Z) (l : list A) :
  0 < d ->
  Z.of_nat (List.length (multiples_of d (enum_from 0 l))) =
    (Z.of_nat (List.length l) + d - 1) / d.
Proof.
  intro Hd. induction l as [|x l IH] using rev_ind.
  - cbn. rewrite Z.div_small; lia.
  - rewrite enum_from_app. unfold multiples_of in *. rewrite filter_app, length_app.
    cbn. rewrite length_app. cbn [List.length].
    replace (Z.of_nat (List.length l + 1)) with (Z.of_nat (List.length l) + 1) by lia.
    rewrite ceil_div_step by lia. rewrite <- IH.
    destruct ((0 + Z.of_nat (List.length l)) mod d =? 0) eqn:E;
      rewrite Z.add_0_l in E; rewrite E; cbn [List.length]; lia.
Qed.

Lemma frame_name_not_metadata w i : frame_name w i <> "metadata.json".
Proof. unfold frame_name. cbn. discriminate. Qed.

(** ** The fast loop *)

Lemma fast_loop_ok q Mx sf reads : forall idx c z w c' z' w',
  fast_loop q Mx sf reads idx c z w = (Ok (c', z'), w') ->
  exists K, z' = z ++ fast_entries q (enum_from c K)
         /\ c' = c + Z.of_nat (List.length K).
Proof.
  induction reads as [|[f|] reads IH]; intros idx c z w c' z' w' H; cbn in H.
  - inversion H; subst. exists []. cbn. rewrite app_nil_r. split; [reflexivity|lia].
  - destruct (c >=? Mx).
    + inversion H; subst. exists []. cbn. rewrite app_nil_r. split; [reflexivity|lia].
    + unfold py_mod in H. destruct (sf =? 0); [discriminate|]. cbn in H.
      destruct (idx mod sf =? 0); apply IH in H; destruct H as [K [Hz Hc]].
      * exists (f :: K). rewrite Hz. unfold fast_entries. cbn [enum_from map].
        rewrite <- app_assoc. split; [reflexivity|]. cbn [List.length]. lia.
      * exists K. split; [exact Hz | exact Hc].
  - inversion H; subst. exists []. cbn. rewrite app_nil_r. split; [reflexivity|lia].
Qed.

Lemma fast_loop_frames q Mx sf fs stop :
  sf <> 0 -> (stop = [] \/ exists r, stop = None :: r) ->
  forall idx c z w, c <= Mx ->
  exists w',
    fast_loop q Mx sf (map Some fs ++ stop) idx c z w =
      (Ok (c + Z.of_nat (Nat.min (Z.to_nat (Mx - c))
                           (List.length (multiples_of sf (enum_from idx fs)))),
           z ++ fast_entries q (enum_from c (firstn (Z.to_nat (Mx - c))
                                 (map snd (multiples_of sf (enum_from idx fs)))))), w')
    /\ files w' = files w /\ (decoded w' <= List.length fs + S (decoded w))%nat.
Proof.
  intros Hsf Hstop. induction fs as [|f fs IH]; intros idx c z w Hc.
  - eexists. split.
    + destruct Hstop as [-> | [r ->]]; cbn; rewrite Nat.min_0_r, firstn_nil; cbn;
        rewrite Z.add_0_r, app_nil_r; reflexivity.
    + cbn. split; [reflexivity | lia].
  - cbn [map app fast_loop bind tick]. unfold multiples_of. cbn [enum_from filter].
    destruct (c >=? Mx) eqn:E.
    + eexists. cbn [ret]. split.
      { replace (Z.to_nat (Mx - c)) with 0%nat by lia.
        cbn. now rewrite Z.add_0_r, app_nil_r. }
      cbn. split; [reflexivity|lia].
    + unfold py_mod. replace (sf =? 0) with false by (symmetry; now apply Z.eqb_neq).
      cbn [lift bind]. fold (multiples_of sf (enum_from (idx + 1) fs)).
      destruct (idx mod sf =? 0) eqn:Em.
      * match goal with
        | |- context [fast_loop q Mx sf _ _ _ _ ?w1] =>
            destruct (IH (idx + 1) (c + 1) (z ++ [(frame_name 4 c, PBytes (imencode q 0 f))]) w1
                        ltac:(lia)) as [w' [E' [Hf Hd]]]
        end.
        rewrite E'. exists w'. cbn in Hf, Hd. split; [|split; [exact Hf | cbn [List.length]; lia]].
        replace (Z.to_nat (Mx - c)) with (S (Z.to_nat (Mx - (c + 1)))) by lia.
        cbn [List.length map firstn enum_from]. unfold fast_entries at 2. cbn [map].
        rewrite <- app_assoc. cbn [app]. do 3 f_equal. lia.
      * match goal with
        | |- context [fast_loop q Mx sf _ _ _ _ ?w1] =>
            destruct (IH (idx + 1) c z w1 ltac:(lia)) as [w' [E' [Hf Hd]]]
        end.
        rewrite E'. exists w'. cbn in Hf, Hd. split; [reflexivity | split; [exact Hf | cbn [List.length]; lia]].
Qed.

(** ** The endpoints *)

Lemma remove_path_written p d l :
  remove_path p ((p, d) :: remove_path p l) = remove_path p l.
Proof.
  unfold remove_path at 1. cbn. rewrite String.eqb_refl. cbn.
  fold (remove_path p (remove_path p l)). apply remove_path_idem.
Qed.

Lemma extract_frames_fast_frames tmp data Mx q fps cnt wd ht fs stop w :
  1 <= Mx -> (stop = [] \/ exists r, stop = None :: r) ->
  video_open data = Some (mkCapture fps cnt wd ht (map Some fs ++ stop)) ->
  let sf := Z.max 1 (cnt / Mx) in
  let K := multiples_of sf (enum_from 0 fs) in
  let n := Z.of_nat (Nat.min (Z.to_nat Mx) (List.length K)) in
  exists w',
    extract_frames_fast tmp data Mx q w =
      (Ok (fast_entries q (enum_from 0 (firstn (Z.to_nat Mx) (map snd K))) ++
           [("metadata.json",
             PJson (JObj [("fps", JFloat fps); ("total_frames", JInt cnt);
                          ("extracted_frames", JInt n);
                          ("width", JInt wd); ("height", JInt ht);
                          ("frames", JArr (map (fast_frame_record fps sf) (py_range n)))]))]),
       w')
    /\ files w' = remove_path tmp (files w)
    /\ (decoded w' <= List.length fs + S (decoded w))%nat.
Proof.
  intros HM Hstop Hopen sf K n.
  unfold extract_frames_fast. unfold bind at 1. cbn [write_file].
  rewrite try_finally_cleanup.
  destruct (fast_loop_frames q Mx sf fs stop ltac:(lia) Hstop 0 0 []
              (mkWorld ((tmp, data) :: remove_path tmp (files w)) (decoded w)) ltac:(lia))
    as [w2 [E [Hf Hd]]].
  cbn [files decoded] in Hf, Hd.
  exists (mkWorld (remove_path tmp (files w2)) (decoded w2)).
  match goal with
  | |- context [fst (?b ?w0)] =>
      assert (Hb : b w0 =
        (Ok (fast_entries q (enum_from 0 (firstn (Z.to_nat Mx) (map snd K))) ++
             [("metadata.json",
               PJson (JObj [("fps", JFloat fps); ("total_frames", JInt cnt);
                            ("extracted_frames", JInt n);
                            ("width", JInt wd); ("height", JInt ht);
                            ("frames", JArr (map (fast_frame_record fps sf) (py_range n)))]))]),
         w2))
  end.
  { unfold bind at 1. rewrite open_written, Hopen.
    cbn [cap_reads cap_fps cap_frame_count cap_width cap_height].
    unfold py_floordiv. replace (Mx =? 0) with false by (symmetry; apply Z.eqb_neq; lia).
    unfold bind at 1. cbn [lift]. unfold bind at 1. fold sf. rewrite E.
    rewrite Z.sub_0_r, Z.add_0_l, app_nil_l. reflexivity. }
  rewrite Hb. cbn [fst snd]. split; [reflexivity|].
  cbn [files decoded]. rewrite Hf, remove_path_written. split; [reflexivity | exact Hd].
Qed.

Lemma extract_frames_streaming_ok ex tmp data q k w arch w' :
  extract_frames_streaming ex tmp data q k w = (Ok arch, w') ->
  exists cap K,
    video_open data = Some cap /\
    arch = process_frame_batch (enum_from 0 K) q ++
      [("metadata.json",
        PJson (JObj [("fps", JFloat (cap_fps cap));
                     ("total_frames", JInt (cap_frame_count cap));
                     ("extracted_frames", JInt (Z.of_nat (List.length K)));
                     ("width", JInt (cap_width cap)); ("height", JInt (cap_height cap));
                     ("skip_frames", JInt k)]))].
Proof.
  unfold extract_frames_streaming. unfold bind at 1. cbn [write_file].
  rewrite try_finally_cleanup. intro H. injection H as H _.
  unfold bind at 1 in H. rewrite open_written in H.
  destruct (video_open data) as [cap|] eqn:Ho; [|discriminate].
  unfold bind at 1 in H.
  destruct (streaming_loop ex q k (cap_reads cap) (mkLoopState 0 0 [] []) _)
    as [[s'|e] w2] eqn:EL; [|discriminate].
  apply streaming_loop_ok in EL. destruct EL as [K [Hz Hc]].
  cbn [zipf frame_batch extracted_count] in Hz, Hc.
  unfold bind at 1 in H. rewrite flush_remaining in H. cbn [ret fst] in H.
  injection H as <-. exists cap, K. split; [reflexivity|]. now rewrite Hz, Hc.
Qed.

Lemma extract_frames_fast_ok tmp data Mx q w arch w' :
  extract_frames_fast tmp data Mx q w = (Ok arch, w') ->
  exists cap K sf,
    video_open data = Some cap /\
    arch = fast_entries q (enum_from 0 K) ++
      [("metadata.json",
        PJson (JObj [("fps", JFloat (cap_fps cap));
                     ("total_frames", JInt (cap_frame_count cap));
                     ("extracted_frames", JInt (Z.of_nat (List.length K)));
                     ("width", JInt (cap_width cap)); ("height", JInt (cap_height cap));
                     ("frames", JArr (map (fast_frame_record (cap_fps cap) sf)
                                          (py_range (Z.of_nat (List.length K)))))]))].
Proof.
  unfold extract_frames_fast. unfold bind at 1. cbn [write_file].
  rewrite try_finally_cleanup. intro H. injection H as H _.
  unfold bind at 1 in H. rewrite open_written in H.
  destruct (video_open data) as [cap|] eqn:Ho; [|discriminate].
  unfold bind at 1 in H. unfold py_floordiv in H.
  destruct (Mx =? 0); [discriminate|]. cbn [lift] in H. unfold bind at 1 in H.
  destruct (fast_loop q Mx _ (cap_reads cap) 0 0 [] _)
    as [[[c' z']|e] w2] eqn:EL; [|discriminate].
  apply fast_loop_ok in EL. destruct EL as [K [Hz Hc]].
  cbn [ret fst] in H. injection H as <-.
  exists cap, K, (Z.max 1 (cap_frame_count cap / Mx)). split; [reflexivity|].
  rewrite Hz, Hc, app_nil_l, Z.add_0_l. reflexivity.
Qed.

Lemma streaming_loop_executor ex1 ex2 q k reads : forall s w,
  streaming_loop ex1 q k reads s w = streaming_loop ex2 q k reads s w.
Proof.
  induction reads as [|[f|] reads IH]; intros s w; cbn [streaming_loop]; try reflexivity.
  unfold bind, tick, lift, ret, run_in_executor.
  destruct (py_mod (frame_idx s) (k + 1)) as [r|e]; [|reflexivity].
  destruct (r =? 0); [destruct (_ >=? batch_size)|]; apply IH.
Qed.

Lemma split_reads (reads : list (option frame)) :
  exists fs stop, reads = map Some fs ++ stop /\ (stop = [] \/ exists r, stop = None :: r).
Proof.
  induction reads as [|[f|] reads IH].
  - exists [], []. split; [reflexivity | now left].
  - destruct IH as [fs [stop [-> Hs]]]. exists (f :: fs), stop. split; [reflexivity | exact Hs].
  - exists [], (None :: reads). split; [reflexivity | right; now exists reads].
Qed.

Lemma frame_entries_shape width (names : list Z) (fes : list entry) :
  map fst fes = map (frame_name width) names ->
  Forall (fun e => exists i, fst e = frame_name width i) fes
  /\ ~ In "metadata.json" (map fst fes).
Proof.
  revert names. induction fes as [|e fes IH]; intros [|i names] H; try discriminate.
  - split; [constructor | tauto].
  - injection H as He Hr. destruct (IH names Hr) as [HF HI]. split.
    + constructor; [now exists i | exact HF].
    + cbn. intros [Heq | Hin]; [|exact (HI Hin)].
      rewrite He in Heq. exact (frame_name_not_metadata width i Heq).
Qed.

Lemma process_frame_batch_names l q :
  map fst (process_frame_batch l q) = map (frame_name 6) (map fst l).
Proof. unfold process_frame_batch. rewrite !map_map. apply map_ext. now intros [i f]. Qed.

Lemma fast_entries_names q l :
  map fst (fast_entries q l) = map (frame_name 4) (map fst l).
Proof. unfold fast_entries. rewrite !map_map. apply map_ext. now intros [i f]. Qed.

(** ** Claims *)

(** C1. Exhaustive mode, [skip_frames = k >= 0], on a video whose decoder
    yields the frames [fs]: the archive holds, in order, the JPEGs of exactly
    the frames whose source index is a multiple of [k + 1] in
    [[0, length fs)], named from a kept index running [0 .. n-1], and
    [metadata.json] reports [extracted_frames = n]; with [k = 0],
    [n = length fs]. *)
Theorem streaming_skip_policy ex tmp data q k fps cnt wd ht fs w :
  0 <= k ->
  video_open data = Some (mkCapture fps cnt wd ht (map Some fs)) ->
  let kept := multiples_of (k + 1) (enum_from 0 fs) in
  (exists meta w',
     extract_frames_streaming ex tmp data q k w =
       (Ok (process_frame_batch (enum_from 0 (map snd kept)) q ++
            [("metadata.json", PJson meta)]), w')
     /\ json_get "extracted_frames" meta = Some (JInt (Z.of_nat (List.length kept))))
  /\ (forall i, In i (map fst kept) <->
                0 <= i < Z.of_nat (List.length fs) /\ i mod (k + 1) = 0)
  /\ map fst (enum_from 0 (map snd kept)) = zrange_from 0 (List.length kept)
  /\ (k = 0 -> List.length kept = List.length fs).
Proof.
  intros Hk Hopen kept. split; [|split; [|split]].
  - rewrite <- (app_nil_r (map Some fs)) in Hopen.
    rewrite (extract_frames_streaming_frames ex tmp data q k fps cnt wd ht fs [] w Hk
               (or_introl eq_refl) Hopen).
    eexists _, _. split; reflexivity.
  - intro i. unfold kept. rewrite multiples_of_fst, filter_In, in_zrange_from, Z.eqb_eq.
    lia.
  - rewrite enum_from_fst, length_map. reflexivity.
  - intros ->. unfold kept. cbn [Z.add]. rewrite multiples_of_one.
    apply length_enum_from.
Qed.

(** C2. Fast mode, [max_frames = M >= 1], on a video whose metadata frame
    count [T] is the number of frames [fs] its decoder yields:
    [skip_factor = max(1, T // M)], the archive holds the JPEGs of the first
    [n] frames whose source index is a multiple of [skip_factor], named
    [frame_0000 .. ], and [extracted_frames = n = min(M, ceil(T / skip_factor))]. *)
Theorem fast_budget_policy tmp data Mx q fps T wd ht fs w :
  1 <= Mx -> Z.of_nat (List.length fs) = T ->
  video_open data = Some (mkCapture fps T wd ht (map Some fs)) ->
  let skip_factor := Z.max 1 (T / Mx) in
  let kept := multiples_of skip_factor (enum_from 0 fs) in
  let n := Z.min Mx ((T + skip_factor - 1) / skip_factor) in
  (exists meta w',
     extract_frames_fast tmp data Mx q w =
       (Ok (fast_entries q (enum_from 0 (firstn (Z.to_nat n) (map snd kept))) ++
            [("metadata.json", PJson meta)]), w')
     /\ json_get "extracted_frames" meta = Some (JInt n))
  /\ (forall i, In i (map fst kept) <-> 0 <= i < T /\ i mod skip_factor = 0).
Proof.
  intros HM HT Hopen sf kept n.
  assert (Hcnt : Z.of_nat (List.length kept) = (T + sf - 1) / sf)
    by (rewrite <- HT; apply count_multiples; lia).
  assert (Hn' : n = Z.min Mx (Z.of_nat (List.length kept))) by (unfold n; now rewrite Hcnt).
  clearbody n. subst n.
  split.
  - rewrite <- (app_nil_r (map Some fs)) in Hopen.
    destruct (extract_frames_fast_frames tmp data Mx q fps T wd ht fs [] w HM
                (or_introl eq_refl) Hopen) as [w' [E _]].
    fold sf in E. fold kept in E.
    assert (Hn : Z.of_nat (Nat.min (Z.to_nat Mx) (List.length kept)) = Z.min Mx (Z.of_nat (List.length kept))) by lia.
    rewrite Hn in E.
    assert (Hf : firstn (Z.to_nat Mx) (map snd kept) =
                 firstn (Z.to_nat (Z.min Mx (Z.of_nat (List.length kept)))) (map snd kept)).
    { destruct (Nat.le_ge_cases (Z.to_nat Mx) (List.length kept)) as [Hle | Hge].
      - f_equal. lia.
      - rewrite firstn_all2 by (rewrite length_map; lia).
        rewrite firstn_all2 by (rewrite length_map; lia). reflexivity. }
    rewrite Hf in E. rewrite E. eexists _, _. split; reflexivity.
  - intro i. unfold kept. rewrite multiples_of_fst, filter_In, in_zrange_from, Z.eqb_eq, HT.
    lia.
Qed.

(** C3. In exhaustive mode the whole outcome (archive and effects) is the
    same whatever executor the batches are sent to, and every produced
    archive lists its frame entries by kept index [0, 1, ..., n-1]. *)
Theorem archive_order_executor_invariant ex1 ex2 tmp data q k w :
  extract_frames_streaming ex1 tmp data q k w = extract_frames_streaming ex2 tmp data q k w
  /\ (forall arch w', extract_frames_streaming ex1 tmp data q k w = (Ok arch, w') ->
      exists kept meta,
        arch = process_frame_batch kept q ++ [("metadata.json", PJson meta)]
        /\ map fst kept = zrange_from 0 (List.length kept)).
Proof.
  split.
  - unfold extract_frames_streaming, try_finally, bind, write_file, open_capture,
      throw, ret, run_in_executor.
    cbn [fst snd files decoded find]. rewrite String.eqb_refl.
    destruct (video_open data) as [cap|]; [|reflexivity].
    rewrite (streaming_loop_executor ex1 ex2). reflexivity.
  - intros arch w' H. apply extract_frames_streaming_ok in H.
    destruct H as [cap [K [_ ->]]].
    exists (enum_from 0 K). eexists. split; [reflexivity|].
    now rewrite enum_from_fst, length_enum_from.
Qed.

(** C4. Every archive either endpoint produces is its frame entries
    followed by one last entry, [metadata.json], whose [extracted_frames] is
    the number of frame entries; a video that decodes no frame still yields
    an archive holding only [metadata.json]. *)
Theorem archive_frames_then_metadata :
  (forall ex tmp data q k w arch w',
     extract_frames_streaming ex tmp data q k w = (Ok arch, w') ->
     frames_then_metadata 6 arch)
  /\ (forall tmp data Mx q w arch w',
     extract_frames_fast tmp data Mx q w = (Ok arch, w') ->
     frames_then_metadata 4 arch)
  /\ (forall ex tmp data q k fps cnt wd ht w,
     0 <= k -> video_open data = Some (mkCapture fps cnt wd ht []) ->
     exists meta w',
       extract_frames_streaming ex tmp data q k w = (Ok [("metadata.json", PJson meta)], w'))
  /\ (forall tmp data Mx q fps cnt wd ht w,
     1 <= Mx -> video_open data = Some (mkCapture fps cnt wd ht []) ->
     exists meta w',
       extract_frames_fast tmp data Mx q w = (Ok [("metadata.json", PJson meta)], w')).
Proof.
  split; [|split; [|split]].
  - intros ex tmp data q k w arch w' H.
    apply extract_frames_streaming_ok in H. destruct H as [cap [K [_ ->]]].
    exists (process_frame_batch (enum_from 0 K) q). eexists. split; [reflexivity|].
    destruct (frame_entries_shape 6 (map fst (enum_from 0 K)) (process_frame_batch (enum_from 0 K) q)
                (process_frame_batch_names _ _)) as [HF HI].
    split; [exact HF|]. split; [exact HI|].
    unfold process_frame_batch. now rewrite length_map, length_enum_from.
  - intros tmp data Mx q w arch w' H.
    apply extract_frames_fast_ok in H. destruct H as [cap [K [sf [_ ->]]]].
    exists (fast_entries q (enum_from 0 K)). eexists. split; [reflexivity|].
    destruct (frame_entries_shape 4 (map fst (enum_from 0 K)) (fast_entries q (enum_from 0 K))
                (fast_entries_names _ _)) as [HF HI].
    split; [exact HF|]. split; [exact HI|].
    unfold fast_entries. now rewrite length_map, length_enum_from.
  - intros ex tmp data q k fps cnt wd ht w Hk Hopen.
    rewrite (extract_frames_streaming_frames ex tmp data q k fps cnt wd ht [] [] w Hk
               (or_introl eq_refl) Hopen).
    eexists _, _. reflexivity.
  - intros tmp data Mx q fps cnt wd ht w HM Hopen.
    destruct (extract_frames_fast_frames tmp data Mx q fps cnt wd ht [] [] w HM
                (or_introl eq_refl) Hopen) as [w' [E _]].
    rewrite E. cbn [multiples_of enum_from filter map]. rewrite firstn_nil.
    eexists _, _. reflexivity.
Qed.

Lemma cleanup_after_streaming ex tmp data q k w :
  ~ In tmp (map fst (files (snd (extract_frames_streaming ex tmp data q k w)))).
Proof.
  unfold extract_frames_streaming. unfold bind at 1. cbn [write_file].
  rewrite try_finally_cleanup. apply remove_path_gone.
Qed.

Lemma cleanup_after_fast tmp data Mx q w :
  ~ In tmp (map fst (files (snd (extract_frames_fast tmp data Mx q w)))).
Proof.
  unfold extract_frames_fast. unfold bind at 1. cbn [write_file].
  rewrite try_finally_cleanup. apply remove_path_gone.
Qed.

(** C5. When the uploaded video cannot be opened, both endpoints fail with
    [HTTPException(400)] and produce no archive; on every path, success or
    exception, the temporary copy of the upload no longer exists when the
    endpoint returns. *)
Theorem open_failure_and_cleanup :
  (forall ex tmp data q k w, video_open data = None ->
     exists w', extract_frames_streaming ex tmp data q k w =
                  (Err (HTTPException 400 "Could not open video file"), w')
                /\ ~ In tmp (map fst (files w')))
  /\ (forall tmp data Mx q w, video_open data = None ->
     exists w', extract_frames_fast tmp data Mx q w =
                  (Err (HTTPException 400 "Could not open video file"), w')
                /\ ~ In tmp (map fst (files w')))
  /\ (forall ex tmp data q k w,
     ~ In tmp (map fst (files (snd (extract_frames_streaming ex tmp data q k w)))))
  /\ (forall tmp data Mx q w,
     ~ In tmp (map fst (files (snd (extract_frames_fast tmp data Mx q w))))).
Proof.
  split; [|split; [|split]].
  - intros ex tmp data q k w Ho.
    pose proof (cleanup_after_streaming ex tmp data q k w) as Hc.
    destruct (extract_frames_streaming ex tmp data q k w) as [r w'] eqn:E.
    exists w'. split; [|exact Hc]. f_equal.
    unfold extract_frames_streaming in E. unfold bind at 1 in E. cbn [write_file] in E.
    rewrite try_finally_cleanup in E. injection E as E _. rewrite <- E.
    unfold bind at 1. rewrite open_written, Ho. reflexivity.
  - intros tmp data Mx q w Ho.
    pose proof (cleanup_after_fast tmp data Mx q w) as Hc.
    destruct (extract_frames_fast tmp data Mx q w) as [r w'] eqn:E.
    exists w'. split; [|exact Hc]. f_equal.
    unfold extract_frames_fast in E. unfold bind at 1 in E. cbn [write_file] in E.
    rewrite try_finally_cleanup in E. injection E as E _. rewrite <- E.
    unfold bind at 1. rewrite open_written, Ho. reflexivity.
  - exact cleanup_after_streaming.
  - exact cleanup_after_fast.
Qed.

(** C7 (as the code has it). A 100-frame, 10 fps video in exhaustive mode
    with [skip_frames = 1]: the kept source indices are [0, 2, ..., 98], the
    archive holds 50 frame entries, [metadata.json] reports
    [extracted_frames = 50] and [fps = 10], and has no [frames] array: the
    exhaustive metadata carries no per-frame timestamps. *)
Theorem streaming_scenario_100_frames ex tmp data q wd ht fs w :
  List.length fs = 100%nat ->
  video_open data = Some (mkCapture 10 100 wd ht (map Some fs)) ->
  let kept := multiples_of 2 (enum_from 0 fs) in
  map fst kept = map (fun j => 2 * j) (zrange_from 0 50)
  /\ exists meta w',
       extract_frames_streaming ex tmp data q 1 w =
         (Ok (process_frame_batch (enum_from 0 (map snd kept)) q ++
              [("metadata.json", PJson meta)]), w')
       /\ List.length (process_frame_batch (enum_from 0 (map snd kept)) q) = 50%nat
       /\ json_get "extracted_frames" meta = Some (JInt 50)
       /\ json_get "fps" meta = Some (JFloat 10)
       /\ json_get "frames" meta = None.
Proof.
  intros Hlen Hopen kept.
  assert (Hfst : map fst kept = map (fun j => 2 * j) (zrange_from 0 50))
    by (unfold kept; rewrite multiples_of_fst, Hlen; reflexivity).
  assert (Hk : List.length kept = 50%nat)
    by (rewrite <- (length_map fst), Hfst; reflexivity).
  split; [exact Hfst|].
  rewrite <- (app_nil_r (map Some fs)) in Hopen.
  pose proof (extract_frames_streaming_frames ex tmp data q 1 10 100 wd ht fs [] w
                ltac:(lia) (or_introl eq_refl) Hopen) as E.
  replace (1 + 1) with 2 in E by reflexivity. fold kept in E.
  rewrite E, Hk. eexists _, _. split; [reflexivity|].
  split; [|split; [reflexivity | split; reflexivity]].
  unfold process_frame_batch. now rewrite length_map, length_enum_from, length_map.
Qed.

(** C8. In fast mode the metadata holds a [frames] array with one record per
    extracted frame: record [i] is [frame_index = i], [timestamp =
    (i * skip_factor) / fps] if [fps > 0] and [0.0] otherwise, and
    [filename = frame_%04d.jpg] of [i]. For a 1000-frame video with
    [max_frames = 100] there are 100 frames and [frames[5].timestamp] is
    [50 / fps] when [fps > 0]. *)
Theorem fast_frames_metadata tmp data Mx q cap w :
  1 <= Mx -> video_open data = Some cap ->
  let fps := cap_fps cap in
  let skip_factor := Z.max 1 (cap_frame_count cap / Mx) in
  (exists fes meta n w',
     extract_frames_fast tmp data Mx q w = (Ok (fes ++ [("metadata.json", PJson meta)]), w')
     /\ Z.of_nat (List.length fes) = n
     /\ json_get "extracted_frames" meta = Some (JInt n)
     /\ json_get "frames" meta =
          Some (JArr (map (fun i =>
                             JObj [("frame_index", JInt i);
                                   ("timestamp",
                                    JFloat (if Qle_bool fps 0 then 0
                                            else inject_Z (i * skip_factor) / fps));
                                   ("filename", JStr (frame_name 4 i))])
                          (zrange_from 0 (Z.to_nat n)))))
  /\ (forall data' (fps' : Q) wd ht fs,
        List.length fs = 1000%nat -> (0 < fps')%Q ->
        video_open data' = Some (mkCapture fps' 1000 wd ht (map Some fs)) ->
        exists fes meta w',
          extract_frames_fast tmp data' 100 q w = (Ok (fes ++ [("metadata.json", PJson meta)]), w')
          /\ List.length fes = 100%nat
          /\ json_get "extracted_frames" meta = Some (JInt 100)
          /\ frame_timestamp meta 5 = Some (JFloat (inject_Z 50 / fps'))).
Proof.
  intros HM Hopen fps sf. split.
  - destruct (split_reads (cap_reads cap)) as [fs [stop [Hr Hs]]].
    destruct cap as [f0 c0 w0 h0 r0]. cbn in Hr, fps, sf. subst r0.
    destruct (extract_frames_fast_frames tmp data Mx q f0 c0 w0 h0 fs stop w HM Hs Hopen)
      as [w' [E _]].
    rewrite E. eexists _, _, _, _. split; [reflexivity|].
    split; [|split; [reflexivity | reflexivity]].
    unfold fast_entries. rewrite length_map, length_enum_from, length_firstn, length_map.
    lia.
  - intros data' fps' wd ht fs Hlen Hpos Hopen'.
    rewrite <- (app_nil_r (map Some fs)) in Hopen'.
    destruct (extract_frames_fast_frames tmp data' 100 q fps' 1000 wd ht fs [] w ltac:(lia)
                (or_introl eq_refl) Hopen') as [w' [E _]].
    replace (Z.max 1 (1000 / 100)) with 10 in E by reflexivity.
    assert (HK : List.length (multiples_of 10 (enum_from 0 fs)) = 100%nat).
    { pose proof (count_multiples 10 fs ltac:(lia)) as H. rewrite Hlen in H. cbn in H. lia. }
    rewrite HK in E.
    replace (Z.of_nat (Nat.min (Z.to_nat 100) 100)) with 100 in E by reflexivity.
    assert (Hq : Qle_bool fps' 0 = false).
    { destruct (Qle_bool fps' 0) eqn:Hq; [|reflexivity].
      apply Qle_bool_iff in Hq. exfalso. exact (Qlt_not_le _ _ Hpos Hq). }
    rewrite E. eexists _, _, _. split; [reflexivity|].
    split; [|split; [reflexivity|]].
    + unfold fast_entries. rewrite length_map, length_enum_from, length_firstn, length_map, HK.
      reflexivity.
    + unfold frame_timestamp, py_range.
      replace (Z.to_nat 100) with 100%nat by reflexivity.
      cbn -[fast_timestamp]. unfold fast_timestamp. rewrite Hq. reflexivity.
Qed.

(** C9. A read that fails in the middle of the stream ends extraction like
    the end of the stream: both endpoints return the archive of the frames
    decoded before it, and the decoder is not read past it. *)
Theorem midstream_failure_is_end_of_stream ex tmp data q k Mx fps cnt wd ht fs rest w :
  0 <= k -> 1 <= Mx ->
  video_open data = Some (mkCapture fps cnt wd ht (map Some fs ++ None :: rest)) ->
  (exists meta w',
     extract_frames_streaming ex tmp data q k w =
       (Ok (process_frame_batch
              (enum_from 0 (map snd (multiples_of (k + 1) (enum_from 0 fs)))) q
            ++ [("metadata.json", PJson meta)]), w')
     /\ decoded w' = (List.length fs + S (decoded w))%nat)
  /\ (exists meta w',
     extract_frames_fast tmp data Mx q w =
       (Ok (fast_entries q (enum_from 0 (firstn (Z.to_nat Mx)
              (map snd (multiples_of (Z.max 1 (cnt / Mx)) (enum_from 0 fs))))) ++
            [("metadata.json", PJson meta)]), w')
     /\ (decoded w' <= List.length fs + S (decoded w))%nat).
Proof.
  intros Hk HM Hopen.
  assert (Hs : None :: rest = [] \/ exists r, None :: rest = None :: r)
    by (right; now exists rest).
  split.
  - rewrite (extract_frames_streaming_frames ex tmp data q k fps cnt wd ht fs (None :: rest) w
               Hk Hs Hopen).
    eexists _, _. split; reflexivity.
  - destruct (extract_frames_fast_frames tmp data Mx q fps cnt wd ht fs (None :: rest) w HM
                Hs Hopen) as [w' [E [_ Hd]]].
    rewrite E. eexists _, _. split; [reflexivity | exact Hd].
Qed.

(** C10 (as the code has it). Neither endpoint validates its parameters. On
    a video that opens: fast mode with [max_frames = 0] always fails with
    [ZeroDivisionError] from [total_frames // 0]; exhaustive mode with
    [skip_frames = -1] fails with [ZeroDivisionError] from [frame_idx % 0] as
    soon as a first frame is decoded, while a stream that yields no frame
    produces an archive holding only [metadata.json]; the temporary file is
    removed in every case. *)
Theorem unvalidated_parameters ex tmp data q cap w :
  video_open data = Some cap ->
  (exists w', extract_frames_fast tmp data 0 q w = (Err ZeroDivisionError, w')
              /\ ~ In tmp (map fst (files w')))
  /\ (forall f rest, cap_reads cap = Some f :: rest ->
      exists w', extract_frames_streaming ex tmp data q (-1) w = (Err ZeroDivisionError, w')
                 /\ ~ In tmp (map fst (files w')))
  /\ (forall rest, cap_reads cap = [] \/ cap_reads cap = None :: rest ->
      exists meta w',
        extract_frames_streaming ex tmp data q (-1) w = (Ok [("metadata.json", PJson meta)], w')
        /\ ~ In tmp (map fst (files w'))).
Proof.
  intros Ho. split; [|split].
  - pose proof (cleanup_after_fast tmp data 0 q w) as Hc.
    destruct (extract_frames_fast tmp data 0 q w) as [r w'] eqn:E.
    exists w'. split; [|exact Hc]. f_equal.
    unfold extract_frames_fast in E. unfold bind at 1 in E. cbn [write_file] in E.
    rewrite try_finally_cleanup in E. injection E as E _. rewrite <- E.
    unfold bind at 1. rewrite open_written, Ho. reflexivity.
  - intros f rest Hr.
    pose proof (cleanup_after_streaming ex tmp data q (-1) w) as Hc.
    destruct (extract_frames_streaming ex tmp data q (-1) w) as [r w'] eqn:E.
    exists w'. split; [|exact Hc]. f_equal.
    unfold extract_frames_streaming in E. unfold bind at 1 in E. cbn [write_file] in E.
    rewrite try_finally_cleanup in E. injection E as E _. rewrite <- E.
    unfold bind at 1. rewrite open_written, Ho. rewrite Hr. reflexivity.
  - intros rest Hr.
    pose proof (cleanup_after_streaming ex tmp data q (-1) w) as Hc.
    destruct (extract_frames_streaming ex tmp data q (-1) w) as [r w'] eqn:E.
    unfold extract_frames_streaming in E. unfold bind at 1 in E. cbn [write_file] in E.
    rewrite try_finally_cleanup in E. injection E as E _.
    unfold bind at 1 in E. rewrite open_written, Ho in E.
    destruct Hr as [Hr | Hr]; rewrite Hr in E; cbn in E;
      subst r; eexists _, w'; (split; [reflexivity | exact Hc]).
Qed.

(** * Further properties of the code *)

(** ** Reading a [BytesIO] in chunks *)

Lemma skipn_length_firstn {A : Type} (n : nat) (l : list A) :
  skipn (List.length (firstn n l)) l = skipn n l.
Proof.
  rewrite length_firstn. destruct (Nat.le_ge_cases n (List.length l)) as [H|H].
  - now rewrite Nat.min_l.
  - rewrite Nat.min_r by exact H. rewrite !skipn_all2 by lia. reflexivity.
Qed.

Lemma generate_loop_concat fuel size d p :
  (0 < size)%nat -> (List.length d - p < fuel)%nat ->
  List.concat (generate_loop fuel size (mkBytesIO d p)) = skipn p d.
Proof.
  intros Hs. revert p. induction fuel as [|fuel IH]; intros p Hf; [lia|].
  cbn [generate_loop bio_read bio_data bio_pos].
  destruct (firstn size (skipn p d)) as [|c cs] eqn:E.
  - cbn [List.concat]. destruct (skipn p d) eqn:E2; [reflexivity|].
    destruct size; [lia|]. discriminate.
  - assert (HX : (0 < List.length (skipn p d))%nat).
    { destruct (skipn p d); [now rewrite firstn_nil in E | cbn; lia]. }
    rewrite length_skipn in HX.
    cbn [List.concat]. rewrite IH.
    + rewrite <- E, Nat.add_comm, <- skipn_skipn, skipn_length_firstn.
      apply firstn_skipn.
    + cbn [List.length]. lia.
Qed.

Lemma generate_loop_end fuel size d p :
  (List.length d <= p)%nat -> generate_loop fuel size (mkBytesIO d p) = [].
Proof.
  intro H. destruct fuel; cbn [generate_loop bio_read bio_data bio_pos]; [reflexivity|].
  rewrite skipn_all2 by exact H. now rewrite firstn_nil.
Qed.

Lemma generate_loop_sizes fuel size d p :
  Forall (fun c => (0 < List.length c <= size)%nat) (generate_loop fuel size (mkBytesIO d p))
  /\ Forall (fun c => List.length c = size) (removelast (generate_loop fuel size (mkBytesIO d p))).
Proof.
  revert p. induction fuel as [|fuel IH]; intro p; [split; constructor|].
  cbn [generate_loop bio_read bio_data bio_pos].
  destruct (firstn size (skipn p d)) as [|c cs] eqn:E; [split; constructor|].
  destruct (IH (p + List.length (c :: cs))%nat) as [H1 H2].
  assert (Hc : (List.length (c :: cs) <= size)%nat)
    by (rewrite <- E, length_firstn; lia).
  split.
  - constructor; [cbn [List.length] in *; lia | exact H1].
  - destruct (Nat.eq_dec (List.length (c :: cs)) size) as [Heq|Hne].
    + destruct (generate_loop fuel size _) as [|g gs] eqn:G; [constructor|].
      change (Forall (fun c0 => List.length c0 = size) ((c :: cs) :: removelast (g :: gs))).
      constructor; [exact Heq | exact H2].
    + assert (Hend : (List.length d <= p + List.length (c :: cs))%nat).
      { rewrite <- E, length_firstn, length_skipn in *. lia. }
      rewrite (generate_loop_end _ _ _ _ Hend). constructor.
Qed.

Lemma generate_from_start size d :
  (0 < size)%nat ->
  List.concat (generate size (bio_seek0 (mkBytesIO d (List.length d)))) = d
  /\ Forall (fun c => (0 < List.length c <= size)%nat)
            (generate size (bio_seek0 (mkBytesIO d (List.length d))))
  /\ Forall (fun c => List.length c = size)
            (removelast (generate size (bio_seek0 (mkBytesIO d (List.length d))))).
Proof.
  intro Hs. unfold generate, bio_seek0. cbn [bio_data bio_pos].
  split; [rewrite generate_loop_concat by lia; reflexivity | apply generate_loop_sizes].
Qed.

(** ** File names *)

Lemma split_slash_nonnil s : split_slash s <> [].
Proof.
  induction s as [|c s IH]; cbn; [discriminate|].
  destruct (Ascii.eqb c "/"%char); [discriminate|].
  destruct (split_slash s); discriminate.
Qed.

Lemma split_slash_app x y :
  split_slash (String.append x (String "/"%char y)) = split_slash x ++ split_slash y.
Proof.
  induction x as [|c x IH]; [reflexivity|].
  cbn [String.append split_slash]. rewrite IH.
  destruct (Ascii.eqb c "/"%char); [reflexivity|].
  destruct (split_slash x) eqn:E; [now destruct (split_slash_nonnil x)|]. reflexivity.
Qed.

Lemma split_slash_plain y : str_mem "/"%char y = false -> split_slash y = [y].
Proof.
  induction y as [|c y IH]; cbn; [reflexivity|]. intro H.
  apply orb_false_iff in H as [H1 H2]. rewrite H1, IH by exact H2. reflexivity.
Qed.

Lemma str_mem_app c a b : str_mem c (String.append a b) = str_mem c a || str_mem c b.
Proof. induction a as [|x a IH]; cbn; [reflexivity|]. now rewrite IH, orb_assoc. Qed.

Lemma rfind_char_absent c s : str_mem c s = false -> rfind_char c s = None.
Proof.
  induction s as [|a s IH]; cbn; [reflexivity|]. intro H.
  apply orb_false_iff in H as [H1 H2]. now rewrite IH, H1 by exact H2.
Qed.

Lemma rfind_char_last b e :
  str_mem "."%char e = false ->
  rfind_char "."%char (String.append b (String "."%char e)) = Some (String.length b).
Proof.
  intro He. induction b as [|a b IH]; cbn [String.append rfind_char String.length].
  - now rewrite rfind_char_absent by exact He.
  - now rewrite IH.
Qed.

Lemma string_length_append a b :
  String.length (String.append a b) = (String.length a + String.length b)%nat.
Proof. induction a as [|c a IH]; cbn; [reflexivity|]. now rewrite IH. Qed.

Lemma substring_prefix b s : String.substring 0 (String.length b) (String.append b s) = b.
Proof.
  induction b as [|c b IH]; cbn [String.length String.append]; [now destruct s|].
  cbn. now rewrite IH.
Qed.

Lemma path_name_last dir nm :
  nm <> "" -> nm <> "." -> str_mem "/"%char nm = false ->
  path_name (String.append dir (String "/"%char nm)) = nm /\ path_name nm = nm.
Proof.
  intros H1 H2 H3. unfold path_name.
  rewrite split_slash_app, !(split_slash_plain nm H3), filter_app. cbn [filter].
  apply String.eqb_neq in H1, H2. rewrite H1, H2. cbn [negb andb].
  split; [apply last_last | reflexivity].
Qed.

Lemma path_stem_name p b e :
  b <> "" -> e <> "" -> str_mem "."%char e = false ->
  path_name p = String.append b (String "."%char e) -> path_stem p = b.
Proof.
  intros Hb He Hd Hp. unfold path_stem. rewrite Hp, rfind_char_last by exact Hd.
  rewrite string_length_append. cbn [String.length].
  destruct b as [|x b]; [contradiction|]. destruct e as [|y e]; [contradiction|].
  cbn [String.length].
  replace (Nat.ltb 0 (S (String.length b))) with true by (symmetry; apply Nat.ltb_lt; lia).
  replace (Nat.ltb (S (String.length b)) (S (String.length b) + S (S (String.length e)) - 1))
    with true by (symmetry; apply Nat.ltb_lt; lia).
  exact (substring_prefix (String x b) _).
Qed.

(** ** Frame names are injective *)

Lemma zero_pad_parse k s u :
  NilZero.uint_of_string s = Some u ->
  exists u', NilZero.uint_of_string (zero_pad k s) = Some u' /\ N.of_uint u' = N.of_uint u.
Proof.
  intro H. induction k as [|k [u' [H1 H2]]]; cbn [zero_pad]; [now exists u|].
  exists (Decimal.D0 u'). split; [|exact H2].
  destruct (zero_pad k s) as [|a t]; [discriminate H1|].
  change (uint_of_char "0"%char (NilZero.uint_of_string (String a t)) = Some (Decimal.D0 u')).
  now rewrite H1.
Qed.

Lemma digits_parse n :
  exists u, NilZero.uint_of_string (digits n) = Some u /\ N.of_uint u = n.
Proof.
  exists (N.to_uint n). split; [|apply DecimalN.Unsigned.of_to].
  apply NilZero.usu. intro H.
  pose proof (DecimalN.Unsigned.of_to n) as E. rewrite H in E. cbn in E. subst n.
  discriminate H.
Qed.

Lemma format_0d_parse w z :
  0 <= z ->
  exists u, NilZero.uint_of_string (format_0d w z) = Some u /\ N.of_uint u = Z.to_N z.
Proof.
  intro Hz. unfold format_0d. replace (z <? 0) with false by (symmetry; apply Z.ltb_ge; lia).
  destruct (digits_parse (Z.to_N z)) as [u [H1 H2]].
  destruct (zero_pad_parse (w - String.length (digits (Z.to_N z))) _ _ H1) as [u' [H3 H4]].
  exists u'. split; [exact H3 | congruence].
Qed.

Lemma format_0d_neg w z : z < 0 -> NilZero.uint_of_string (format_0d w z) = None.
Proof.
  intro Hz. unfold format_0d. replace (z <? 0) with true by (symmetry; apply Z.ltb_lt; lia).
  cbn [String.append].
  change (uint_of_char "-"%char
            (NilEmpty.uint_of_string
               (zero_pad (w - 1 - String.length (digits (Z.to_N (- z)))) (digits (Z.to_N (- z)))))
          = None).
  destruct (NilEmpty.uint_of_string _); reflexivity.
Qed.

Lemma format_0d_inj w i j : format_0d w i = format_0d w j -> i = j.
Proof.
  intro E. destruct (Z.ltb_spec i 0) as [Hi|Hi]; destruct (Z.ltb_spec j 0) as [Hj|Hj].
  - unfold format_0d in E.
    replace (i <? 0) with true in E by (symmetry; apply Z.ltb_lt; lia).
    replace (j <? 0) with true in E by (symmetry; apply Z.ltb_lt; lia).
    cbn [String.append] in E. injection E as E.
    destruct (digits_parse (Z.to_N (- i))) as [u [Hu Hu']].
    destruct (digits_parse (Z.to_N (- j))) as [v [Hv Hv']].
    destruct (zero_pad_parse (w - 1 - String.length (digits (Z.to_N (- i)))) _ _ Hu)
      as [u' [H1 H2]].
    destruct (zero_pad_parse (w - 1 - String.length (digits (Z.to_N (- j)))) _ _ Hv)
      as [v' [H3 H4]].
    rewrite E, H3 in H1. injection H1 as ->.
    assert (- i = - j) by (apply Z2N.inj; [lia | lia | congruence]). lia.
  - destruct (format_0d_parse w j Hj) as [v [Hv _]].
    rewrite <- E, format_0d_neg in Hv by exact Hi. discriminate.
  - destruct (format_0d_parse w i Hi) as [u [Hu _]].
    rewrite E, format_0d_neg in Hu by exact Hj. discriminate.
  - destruct (format_0d_parse w i Hi) as [u [Hu Hu']].
    destruct (format_0d_parse w j Hj) as [v [Hv Hv']].
    rewrite E, Hv in Hu. injection Hu as ->.
    apply Z2N.inj; [lia | lia | congruence].
Qed.

Lemma string_append_inj_l p x y : String.append p x = String.append p y -> x = y.
Proof.
  induction p as [|c p IH]; cbn; [tauto|]. intro H. injection H as H. exact (IH H).
Qed.

Lemma string_append_inj_r x y s : String.append x s = String.append y s -> x = y.
Proof.
  revert y. induction x as [|a x IH]; intros [|b y] H; cbn [String.append] in H.
  - reflexivity.
  - exfalso. apply (f_equal String.length) in H. cbn in H.
    rewrite string_length_append in H. lia.
  - exfalso. apply (f_equal String.length) in H. cbn in H.
    rewrite string_length_append in H. lia.
  - injection H as -> H. now rewrite (IH y H).
Qed.

Lemma frame_name_inj w i j : frame_name w i = frame_name w j -> i = j.
Proof.
  unfold frame_name. intro H.
  apply string_append_inj_l, string_append_inj_r, format_0d_inj in H. exact H.
Qed.

Lemma NoDup_frame_names w s n : NoDup (map (frame_name w) (zrange_from s n)).
Proof.
  revert s. induction n as [|n IH]; intro s; cbn [zrange_from map]; [constructor|].
  constructor; [|apply IH].
  rewrite in_map_iff. intros [j [Ej Hj]]. apply in_zrange_from in Hj.
  apply frame_name_inj in Ej. lia.
Qed.

Lemma NoDup_snoc {A : Type} (l : list A) x : NoDup l -> ~ In x l -> NoDup (l ++ [x]).
Proof.
  intros H1 H2. apply (Permutation_NoDup (l := x :: l));
    [apply Permutation_cons_append | now constructor].
Qed.

Lemma archive_names_nodup w (fes : list entry) n (md : payload) :
  map fst fes = map (frame_name w) (zrange_from 0 n) ->
  NoDup (map fst (fes ++ [("metadata.json", md)])).
Proof.
  intro H. rewrite map_app. cbn [map]. unfold entry in *. rewrite H.
  apply NoDup_snoc; [apply NoDup_frame_names|].
  rewrite in_map_iff. intros [i [Ei _]]. exact (frame_name_not_metadata w i Ei).
Qed.

(** ** Reading entries back *)

Lemma zip_read_snoc name a n (p : payload) :
  zip_read name (a ++ [(n, p)]) = if String.eqb n name then Some p else zip_read name a.
Proof.
  unfold zip_read. rewrite rev_unit. cbn [find fst].
  destruct (String.eqb n name); reflexivity.
Qed.

Lemma zip_read_in name (p : payload) (a : archive) :
  NoDup (map fst a) -> In (name, p) a -> zip_read name a = Some p.
Proof.
  induction a as [|[n p'] a IH] using rev_ind; [intros _ []|].
  rewrite map_app. intros Hnd Hin. rewrite zip_read_snoc.
  assert (Hn : ~ In n (map fst a)).
  { intro H. apply (NoDup_remove_2 (map fst a) [] n); rewrite ?app_nil_r; [exact Hnd | exact H]. }
  apply in_app_or in Hin as [Hin | [Heq | []]].
  - destruct (String.eqb n name) eqn:E.
    + apply String.eqb_eq in E. subst n. exfalso. apply Hn.
      apply (in_map fst) in Hin. exact Hin.
    + apply IH; [|exact Hin]. rewrite <- (app_nil_r (map fst a)).
      exact (NoDup_remove_1 (map fst a) [] n Hnd).
  - injection Heq as -> ->. now rewrite String.eqb_refl.
Qed.

Lemma zip_read_notin name (a : archive) : ~ In name (map fst a) -> zip_read name a = None.
Proof.
  induction a as [|[n p] a IH] using rev_ind; [reflexivity|].
  rewrite map_app. intro H. rewrite zip_read_snoc.
  destruct (String.eqb n name) eqn:E.
  - apply String.eqb_eq in E. subst n. exfalso. apply H. apply in_or_app. right. now left.
  - apply IH. intro Hin. apply H. apply in_or_app. now left.
Qed.

Lemma nth_error_enum_from {A : Type} (s : Z) (l : list A) j :
  nth_error (enum_from s l) j = option_map (fun x => (s + Z.of_nat j, x)) (nth_error l j).
Proof.
  revert s j. induction l as [|x l IH]; intros s [|j]; cbn; try reflexivity.
  - now rewrite Z.add_0_r.
  - rewrite IH. destruct (nth_error l j); cbn; [do 2 f_equal; lia | reflexivity].
Qed.

Lemma nth_error_zrange s n j :
  (j < n)%nat -> nth_error (zrange_from s n) j = Some (s + Z.of_nat j).
Proof.
  revert s j. induction n as [|n IH]; intros s [|j] Hj; cbn; try lia.
  - now rewrite Z.add_0_r.
  - rewrite IH by lia. f_equal. lia.
Qed.

Lemma py_range_of_nat n : py_range (Z.of_nat n) = zrange_from 0 n.
Proof. unfold py_range. now rewrite Nat2Z.id. Qed.

(** Position [j] of the kept frames is source frame [d * j]. *)
Lemma multiples_of_nth {A : Type} d (l : list A) j x :
  0 < d -> nth_error (multiples_of d (enum_from 0 l)) j = Some x ->
  fst x = d * Z.of_nat j /\ nth_error l (Z.to_nat (fst x)) = Some (snd x).
Proof.
  intro Hd. revert j x. induction l as [|y l IH] using rev_ind; intros j x H.
  - destruct j; discriminate.
  - rewrite enum_from_app in H. unfold multiples_of in H. rewrite filter_app in H.
    fold (multiples_of d (enum_from 0 l)) in H. cbn [enum_from filter] in H.
    destruct (Nat.lt_ge_cases j (List.length (multiples_of d (enum_from 0 l)))) as [Hj|Hj].
    + rewrite nth_error_app1 in H by exact Hj. destruct (IH j x H) as [H1 H2].
      split; [exact H1|]. rewrite nth_error_app1; [exact H2|].
      apply nth_error_Some. congruence.
    + rewrite nth_error_app2 in H by exact Hj.
      rewrite Z.add_0_l in H.
      destruct (Z.of_nat (List.length l) mod d =? 0) eqn:E;
        [|destruct (j - _)%nat; discriminate].
      destruct (j - List.length (multiples_of d (enum_from 0 l)))%nat eqn:Ej;
        [|destruct n; discriminate].
      cbn in H. injection H as <-. cbn [fst snd].
      apply Z.eqb_eq in E. pose proof (count_multiples d l Hd) as Hc.
      assert (j = List.length (multiples_of d (enum_from 0 l))) by lia. subst j.
      rewrite Nat2Z.id, nth_error_app2, Nat.sub_diag by lia. split; [|reflexivity].
      pose proof (Z.div_mod (Z.of_nat (List.length l)) d ltac:(lia)) as Hdm.
      rewrite E, Z.add_0_r in Hdm.
      rewrite Hc. set (n := Z.of_nat (List.length l)) in *.
      rewrite <- (Z.div_unique (n + d - 1) d (n / d) (d - 1)); [exact Hdm | lia |].
      rewrite Hdm at 1. ring.
Qed.

Lemma kept_source {A : Type} d (l : list A) j f :
  0 < d -> nth_error (map snd (multiples_of d (enum_from 0 l))) j = Some f ->
  nth_error l (Z.to_nat (Z.of_nat j * d)) = Some f.
Proof.
  intros Hd H. rewrite nth_error_map in H.
  destruct (nth_error (multiples_of d (enum_from 0 l)) j) as [x|] eqn:E; [|discriminate].
  injection H as <-. destruct (multiples_of_nth d l j x Hd E) as [H1 H2].
  rewrite H1 in H2. rewrite Z.mul_comm. exact H2.
Qed.

(** Looking up [frame_%0wd.jpg] of [i] in an archive made of the frame
    entries of [L] and the metadata. *)
Lemma lookup_frame_entries w (enc : frame -> jpeg) (L : list frame) (md : payload) i :
  let arch := map (fun p => (frame_name w (fst p), PBytes (enc (snd p)))) (enum_from 0 L)
              ++ [("metadata.json", md)] in
  (0 <= i < Z.of_nat (List.length L) -> exists f,
     nth_error L (Z.to_nat i) = Some f /\ zip_read (frame_name w i) arch = Some (PBytes (enc f)))
  /\ (~ (0 <= i < Z.of_nat (List.length L)) -> zip_read (frame_name w i) arch = None)
  /\ zip_read "metadata.json" arch = Some md.
Proof.
  intro arch.
  assert (Hn : map fst (map (fun p => (frame_name w (fst p), PBytes (enc (snd p)))) (enum_from 0 L))
               = map (frame_name w) (zrange_from 0 (List.length L))).
  { rewrite map_map, <- enum_from_fst, map_map. reflexivity. }
  assert (Hnd : NoDup (map fst arch)) by exact (archive_names_nodup w _ _ md Hn).
  split; [|split].
  - intro Hi. destruct (nth_error L (Z.to_nat i)) as [f|] eqn:E.
    + exists f. split; [reflexivity|]. apply zip_read_in; [exact Hnd|].
      apply in_or_app. left. rewrite in_map_iff. exists (i, f). split.
      * reflexivity.
      * apply nth_error_In with (Z.to_nat i). rewrite nth_error_enum_from, E.
        cbn. do 2 f_equal. lia.
    + apply nth_error_None in E. lia.
  - intro Hi. apply zip_read_notin. unfold arch. rewrite map_app, Hn. cbn [map fst].
    intro H. apply in_app_or in H as [H | [H | []]].
    + rewrite in_map_iff in H. destruct H as [j [Ej Hj]].
      apply frame_name_inj in Ej. apply in_zrange_from in Hj. lia.
    + exact (frame_name_not_metadata w i (eq_sym H)).
  - unfold arch. rewrite zip_read_snoc. now rewrite String.eqb_refl.
Qed.

Lemma process_frame_batch_shape l q :
  process_frame_batch l q =
    map (fun p => (frame_name 6 (fst p), PBytes (imencode q 1 (snd p)))) l.
Proof. unfold process_frame_batch. apply map_ext. now intros [i f]. Qed.

Lemma fast_entries_shape q l :
  fast_entries q l = map (fun p => (frame_name 4 (fst p), PBytes (imencode q 0 (snd p)))) l.
Proof. unfold fast_entries. apply map_ext. now intros [i f]. Qed.

(** X1: No two entries of an archive either endpoint produces share a name:
    the frame names [frame_%06d.jpg] / [frame_%04d.jpg] of distinct indices
    differ, also past the padding width, and none is [metadata.json]. *)
Theorem archive_names_unique :
  (forall ex tmp data q k w arch w',
     extract_frames_streaming ex tmp data q k w = (Ok arch, w') -> NoDup (map fst arch))
  /\ (forall tmp data Mx q w arch w',
     extract_frames_fast tmp data Mx q w = (Ok arch, w') -> NoDup (map fst arch)).
Proof.
  split.
  - intros ex tmp data q k w arch w' H. apply extract_frames_streaming_ok in H.
    destruct H as [cap [K [_ ->]]]. eapply archive_names_nodup.
    rewrite process_frame_batch_names, enum_from_fst. reflexivity.
  - intros tmp data Mx q w arch w' H. apply extract_frames_fast_ok in H.
    destruct H as [cap [K [sf [_ ->]]]]. eapply archive_names_nodup.
    rewrite fast_entries_names, enum_from_fst. reflexivity.
Qed.

(** X2: In every archive of the fast endpoint, the [frames] array of
    [metadata.json] lists the frame entries of the archive in order: record
    [i] has [frame_index = i] and the name of the [i]-th entry as
    [filename]. *)
Theorem fast_metadata_filenames tmp data Mx q w arch w' :
  extract_frames_fast tmp data Mx q w = (Ok arch, w') ->
  exists fes meta recs,
    arch = fes ++ [("metadata.json", PJson meta)]
    /\ json_get "frames" meta = Some (JArr recs)
    /\ map (json_get "filename") recs = map (fun e => Some (JStr (fst e))) fes
    /\ map (json_get "frame_index") recs =
         map (fun i => Some (JInt i)) (zrange_from 0 (List.length fes)).
Proof.
  intro H. apply extract_frames_fast_ok in H. destruct H as [cap [K [sf [_ ->]]]].
  eexists _, _, _. split; [reflexivity|]. split; [reflexivity|].
  rewrite py_range_of_nat. split.
  - rewrite !map_map.
    transitivity (map (fun e => Some (JStr e)) (map fst (fast_entries q (enum_from 0 K)))).
    + rewrite fast_entries_names, enum_from_fst, !map_map. reflexivity.
    + rewrite map_map. reflexivity.
  - unfold fast_entries. rewrite length_map, length_enum_from, map_map. reflexivity.
Qed.

(** X3: Fast mode, [max_frames >= 1], on a video whose decoder yields the
    frames [fs] and then fails or ends: reading [frame_%04d.jpg] of [i] back
    from the archive gives, for [0 <= i < extracted_frames], the JPEG of
    source frame [i * skip_factor], whose [frames[i].timestamp] is that
    source index over [fps] ([0.0] when [fps <= 0]); for any other [i] there
    is no such entry. *)
Theorem fast_archive_lookup tmp data Mx q fps cnt wd ht fs stop w :
  1 <= Mx -> (stop = [] \/ exists r, stop = None :: r) ->
  video_open data = Some (mkCapture fps cnt wd ht (map Some fs ++ stop)) ->
  let skip_factor := Z.max 1 (cnt / Mx) in
  exists arch meta n w',
    extract_frames_fast tmp data Mx q w = (Ok arch, w')
    /\ zip_read "metadata.json" arch = Some (PJson meta)
    /\ json_get "extracted_frames" meta = Some (JInt n)
    /\ (forall i, 0 <= i < n -> exists f,
          nth_error fs (Z.to_nat (i * skip_factor)) = Some f
          /\ zip_read (frame_name 4 i) arch = Some (PBytes (imencode q 0 f))
          /\ frame_timestamp meta (Z.to_nat i) =
               Some (JFloat (if Qle_bool fps 0 then 0
                             else inject_Z (i * skip_factor) / fps)))
    /\ (forall i, ~ (0 <= i < n) -> zip_read (frame_name 4 i) arch = None).
Proof.
  intros HM Hstop Hopen sf.
  pose proof (extract_frames_fast_frames tmp data Mx q fps cnt wd ht fs stop w HM Hstop Hopen)
    as H. cbv zeta in H. destruct H as [w' [E _]]. fold sf in E.
  set (L := firstn (Z.to_nat Mx) (map snd (multiples_of sf (enum_from 0 fs)))) in E.
  assert (HL : Nat.min (Z.to_nat Mx) (List.length (multiples_of sf (enum_from 0 fs)))
               = List.length L) by (unfold L; now rewrite length_firstn, length_map).
  rewrite HL, fast_entries_shape in E.
  match type of E with
  | _ = (Ok (_ ++ [(_, ?md)]), _) =>
      pose proof (fun i => lookup_frame_entries 4 (imencode q 0) L md i) as HK
  end.
  cbv zeta in HK.
  do 4 eexists. split; [exact E|]. split; [exact (proj2 (proj2 (HK 0)))|].
  split; [reflexivity|]. split.
  - intros i Hi. destruct (proj1 (HK i) Hi) as [f [Hf Hz]].
    exists f. split; [|split; [exact Hz|]].
    + assert (Hf' : nth_error (map snd (multiples_of sf (enum_from 0 fs))) (Z.to_nat i) = Some f).
      { rewrite <- (firstn_skipn (Z.to_nat Mx) (map snd (multiples_of sf (enum_from 0 fs)))).
        fold L. rewrite nth_error_app1; [exact Hf|]. lia. }
      apply kept_source in Hf'; [|lia]. rewrite Z2Nat.id in Hf' by lia. exact Hf'.
    + unfold frame_timestamp. cbn [json_get assoc_get String.eqb Ascii.eqb Bool.eqb].
      cbn [json_nth]. rewrite py_range_of_nat, nth_error_map, nth_error_zrange by lia.
      cbn. rewrite Z2Nat.id by lia. reflexivity.
  - intros i Hi. exact (proj1 (proj2 (HK i)) Hi).
Qed.

(** X4: Exhaustive mode, [skip_frames = k >= 0], on a video whose decoder
    yields the frames [fs] and then fails or ends: reading
    [frame_%06d.jpg] of [i] back from the archive gives, for
    [0 <= i < extracted_frames], the JPEG of source frame [i * (k + 1)];
    for any other [i] there is no such entry. *)
Theorem streaming_archive_lookup ex tmp data q k fps cnt wd ht fs stop w :
  0 <= k -> (stop = [] \/ exists r, stop = None :: r) ->
  video_open data = Some (mkCapture fps cnt wd ht (map Some fs ++ stop)) ->
  exists arch meta n w',
    extract_frames_streaming ex tmp data q k w = (Ok arch, w')
    /\ zip_read "metadata.json" arch = Some (PJson meta)
    /\ json_get "extracted_frames" meta = Some (JInt n)
    /\ (forall i, 0 <= i < n -> exists f,
          nth_error fs (Z.to_nat (i * (k + 1))) = Some f
          /\ zip_read (frame_name 6 i) arch = Some (PBytes (imencode q 1 f)))
    /\ (forall i, ~ (0 <= i < n) -> zip_read (frame_name 6 i) arch = None).
Proof.
  intros Hk Hstop Hopen.
  pose proof (extract_frames_streaming_frames ex tmp data q k fps cnt wd ht fs stop w Hk Hstop Hopen)
    as E.
  set (L := map snd (multiples_of (k + 1) (enum_from 0 fs))) in E.
  replace (List.length (multiples_of (k + 1) (enum_from 0 fs))) with (List.length L) in E
    by (unfold L; now rewrite length_map).
  rewrite process_frame_batch_shape in E.
  match type of E with
  | _ = (Ok (_ ++ [(_, ?md)]), _) =>
      pose proof (fun i => lookup_frame_entries 6 (imencode q 1) L md i) as HK
  end.
  cbv zeta in HK.
  do 4 eexists. split; [exact E|]. split; [exact (proj2 (proj2 (HK 0)))|].
  split; [reflexivity|]. split.
  - intros i Hi. destruct (proj1 (HK i) Hi) as [f [Hf Hz]].
    exists f. split; [|exact Hz].
    apply kept_source in Hf; [|lia]. rewrite Z2Nat.id in Hf by lia. exact Hf.
  - intros i Hi. exact (proj1 (proj2 (HK i)) Hi).
Qed.

(** ** Decoding work of the fast loop *)

Lemma ceil_div_bound idx sf : 0 < sf -> idx <= sf * ((idx + sf - 1) / sf).
Proof.
  intro Hsf. pose proof (Z.div_mod (idx + sf - 1) sf ltac:(lia)).
  pose proof (Z.mod_pos_bound (idx + sf - 1) sf Hsf). lia.
Qed.

Lemma ceil_div_exact idx sf :
  0 < sf -> idx mod sf = 0 -> idx = sf * ((idx + sf - 1) / sf).
Proof.
  intros Hsf Hm. pose proof (Z.div_mod idx sf ltac:(lia)) as Hdm.
  rewrite Hm, Z.add_0_r in Hdm.
  rewrite <- (Z.div_unique (idx + sf - 1) sf (idx / sf) (sf - 1)); [exact Hdm | lia |].
  rewrite Hdm at 1. ring.
Qed.

Lemma fast_loop_reads q Mx sf reads :
  1 <= Mx -> 0 < sf -> forall idx c z w,
  0 <= idx -> c = (idx + sf - 1) / sf -> c <= Mx ->
  (c = Mx -> idx <= (Mx - 1) * sf + 1) ->
  Z.of_nat (decoded (snd (fast_loop q Mx sf reads idx c z w)))
    <= Z.of_nat (decoded w) + (Mx - 1) * sf + 2 - idx.
Proof.
  intros HM Hsf. induction reads as [|[f|] reads IH]; intros idx c z w Hi Hc HcM Hlast.
  - cbn. pose proof (ceil_div_bound idx sf Hsf).
    destruct (Z.eq_dec c Mx); [specialize (Hlast e); lia | nia].
  - cbn [fast_loop bind tick snd]. destruct (c >=? Mx) eqn:E.
    + cbn. apply Z.geb_le in E. assert (c = Mx) by lia. specialize (Hlast H). lia.
    + rewrite Z.geb_leb, Z.leb_gt in E. unfold py_mod.
      replace (sf =? 0) with false by (symmetry; apply Z.eqb_neq; lia).
      cbn [lift bind]. pose proof (ceil_div_step idx sf Hi Hsf) as Hstep.
      destruct (Z.eq_dec (idx mod sf) 0) as [Em|Em].
      * rewrite (proj2 (Z.eqb_eq _ _) Em) in Hstep |- *.
        pose proof (IH (idx + 1) (c + 1) (z ++ [(frame_name 4 c, PBytes (imencode q 0 f))])
                      (mkWorld (files w) (S (decoded w)))) as H.
        cbn [decoded] in H.
        pose proof (ceil_div_exact idx sf Hsf Em).
        assert (c + 1 = Mx -> idx + 1 <= (Mx - 1) * sf + 1)
          by (intro HcM'; rewrite <- HcM', Hc;
              set (X := (idx + sf - 1) / sf) in *; nia).
        specialize (H ltac:(lia) ltac:(lia) ltac:(lia) ltac:(assumption)). lia.
      * rewrite (proj2 (Z.eqb_neq _ _) Em) in Hstep |- *.
        pose proof (IH (idx + 1) c z (mkWorld (files w) (S (decoded w)))) as H.
        cbn [decoded] in H.
        specialize (H ltac:(lia) ltac:(lia) ltac:(lia) ltac:(lia)). lia.
  - cbn. pose proof (ceil_div_bound idx sf Hsf).
    destruct (Z.eq_dec c Mx); [specialize (Hlast e); lia | nia].
Qed.

(** X5: Fast mode with [max_frames >= 1] calls [cap.read()] at most
    [(max_frames - 1) * skip_factor + 2] times, however many frames the
    video has: up to the source index [(max_frames - 1) * skip_factor] of the
    last frame it can keep, plus one read past it. *)
Theorem fast_decoding_budget tmp data Mx q cap w :
  1 <= Mx -> video_open data = Some cap ->
  Z.of_nat (decoded (snd (extract_frames_fast tmp data Mx q w))) <=
    Z.of_nat (decoded w) + (Mx - 1) * Z.max 1 (cap_frame_count cap / Mx) + 2.
Proof.
  intros HM Ho. unfold extract_frames_fast. unfold bind at 1. cbn [write_file].
  rewrite try_finally_cleanup. cbn [snd decoded].
  unfold bind at 1. rewrite open_written, Ho. unfold py_floordiv.
  replace (Mx =? 0) with false by (symmetry; apply Z.eqb_neq; lia).
  unfold bind. cbn [lift].
  set (sf := Z.max 1 (cap_frame_count cap / Mx)) in *.
  pose proof (fast_loop_reads q Mx sf (cap_reads cap) HM ltac:(lia) 0 0 []
                (mkWorld ((tmp, data) :: remove_path tmp (files w)) (decoded w))) as H.
  cbn [decoded] in H.
  assert (H0 : 0 = (0 + sf - 1) / sf) by (rewrite Z.div_small; lia).
  specialize (H ltac:(lia) H0 ltac:(lia) ltac:(lia)).
  destruct (fast_loop q Mx sf (cap_reads cap) 0 0 [] _) as [[[c' z']|e] w2];
    cbn in H |- *; lia.
Qed.

(** X6: Fast mode with a negative [max_frames] keeps no frame: once the video
    opens, it reads one frame, stops, and returns an archive holding only
    [metadata.json], with [extracted_frames = 0] and an empty [frames]
    array. *)
Theorem fast_negative_max_frames tmp data Mx q cap w :
  Mx < 0 -> video_open data = Some cap ->
  exists meta w',
    extract_frames_fast tmp data Mx q w = (Ok [("metadata.json", PJson meta)], w')
    /\ json_get "extracted_frames" meta = Some (JInt 0)
    /\ json_get "frames" meta = Some (JArr [])
    /\ decoded w' = S (decoded w)
    /\ files w' = remove_path tmp (files w).
Proof.
  intros HM Ho. unfold extract_frames_fast. unfold bind at 1. cbn [write_file].
  rewrite try_finally_cleanup.
  assert (EF : fast_loop q Mx (Z.max 1 (cap_frame_count cap / Mx)) (cap_reads cap) 0 0 []
                 (mkWorld ((tmp, data) :: remove_path tmp (files w)) (decoded w))
               = (Ok (0, []), mkWorld ((tmp, data) :: remove_path tmp (files w)) (S (decoded w)))).
  { destruct (cap_reads cap) as [|[f|] r]; cbn; [reflexivity| |reflexivity].
    replace (0 >=? Mx) with true by (symmetry; apply Z.geb_le; lia). reflexivity. }
  match goal with
  | |- context [fst (?b ?w0)] =>
      assert (Hb : exists meta,
                 b w0 = (Ok [("metadata.json", PJson meta)],
                         mkWorld ((tmp, data) :: remove_path tmp (files w)) (S (decoded w)))
                 /\ json_get "extracted_frames" meta = Some (JInt 0)
                 /\ json_get "frames" meta = Some (JArr []))
  end.
  { unfold bind at 1. rewrite open_written, Ho. unfold py_floordiv.
    replace (Mx =? 0) with false by (symmetry; apply Z.eqb_neq; lia).
    unfold bind at 1. cbn [lift]. unfold bind at 1. rewrite EF.
    eexists. split; [reflexivity|]. split; reflexivity. }
  destruct Hb as [meta [Hb [H1 H2]]]. rewrite Hb. cbn [fst snd files decoded].
  eexists meta, _. split; [reflexivity|]. split; [exact H1|]. split; [exact H2|].
  split; [reflexivity|]. cbn [files]. apply remove_path_written.
Qed.

(** ** Parameters out of the documented range *)

Lemma mod_zero_opp a b : b <> 0 -> (a mod b =? 0) = (a mod - b =? 0).
Proof.
  intro Hb. destruct (a mod b =? 0) eqn:E; destruct (a mod - b =? 0) eqn:E'; try reflexivity.
  - apply Z.eqb_eq in E. apply Z.eqb_neq in E'. exfalso. apply E'.
    now apply Z.mod_opp_r_z.
  - apply Z.eqb_neq in E. apply Z.eqb_eq in E'. exfalso. apply E.
    rewrite <- (Z.opp_involutive b). apply Z.mod_opp_r_z; lia.
Qed.

Lemma extract_frames_streaming_frames_nz ex tmp data q k fps cnt wd ht fs stop w :
  k + 1 <> 0 -> (stop = [] \/ exists r, stop = None :: r) ->
  video_open data = Some (mkCapture fps cnt wd ht (map Some fs ++ stop)) ->
  extract_frames_streaming ex tmp data q k w =
    (Ok (process_frame_batch
           (enum_from 0 (map snd (multiples_of (k + 1) (enum_from 0 fs)))) q ++
         [("metadata.json",
           PJson (JObj [("fps", JFloat fps); ("total_frames", JInt cnt);
                        ("extracted_frames",
                         JInt (Z.of_nat (List.length (multiples_of (k + 1) (enum_from 0 fs)))));
                        ("width", JInt wd); ("height", JInt ht);
                        ("skip_frames", JInt k)]))]),
     mkWorld (remove_path tmp (files w)) (List.length fs + S (decoded w))).
Proof.
  intros Hk Hstop Hopen. unfold extract_frames_streaming.
  unfold bind at 1. cbn [write_file].
  rewrite try_finally_cleanup.
  match goal with
  | |- context [fst (?b ?w0)] =>
      assert (Hb : b w0 =
        (Ok (process_frame_batch
               (enum_from 0 (map snd (multiples_of (k + 1) (enum_from 0 fs)))) q ++
             [("metadata.json",
               PJson (JObj [("fps", JFloat fps); ("total_frames", JInt cnt);
                            ("extracted_frames",
                             JInt (Z.of_nat (List.length (multiples_of (k + 1) (enum_from 0 fs)))));
                            ("width", JInt wd); ("height", JInt ht);
                            ("skip_frames", JInt k)]))]),
         mkWorld ((tmp, data) :: remove_path tmp (files w)) (List.length fs + S (decoded w))));
      [| rewrite Hb; cbn [fst snd files decoded]; unfold remove_path at 1; cbn;
         rewrite String.eqb_refl; cbn; fold (remove_path tmp (remove_path tmp (files w)));
         now rewrite remove_path_idem]
  end.
  unfold bind at 1. rewrite open_written, Hopen.
  cbn [cap_reads cap_fps cap_frame_count cap_width cap_height].
  destruct (streaming_loop_frames ex q k fs stop ltac:(lia) Hstop
              (mkLoopState 0 0 [] []) (mkWorld ((tmp, data) :: remove_path tmp (files w)) (decoded w)))
    as [s' [E [Hz [Hc _]]]].
  cbn [zipf frame_batch extracted_count frame_idx files decoded] in E, Hz, Hc.
  unfold bind at 1. rewrite E. unfold bind at 1. rewrite flush_remaining.
  cbn [ret]. rewrite Hz, Hc. reflexivity.
Qed.

(** X7: Exhaustive mode with [skip_frames = k <= -2] does not fail: Python's
    [%] by the negative [k + 1] is zero exactly on the multiples of
    [-(k + 1)], so it keeps the same frames, in the same entries, as
    [skip_frames = -k - 2 >= 0]; the two archives differ only in the
    [skip_frames] value of [metadata.json]. *)
Theorem negative_skip_frames_mirror ex tmp data q k cap w :
  k <= -2 -> video_open data = Some cap ->
  exists fes meta meta' w',
    extract_frames_streaming ex tmp data q k w = (Ok (fes ++ [("metadata.json", PJson meta)]), w')
    /\ extract_frames_streaming ex tmp data q (- k - 2) w =
         (Ok (fes ++ [("metadata.json", PJson meta')]), w')
    /\ json_get "skip_frames" meta = Some (JInt k)
    /\ json_get "skip_frames" meta' = Some (JInt (- k - 2))
    /\ (forall key, key <> "skip_frames" -> json_get key meta = json_get key meta').
Proof.
  intros Hk Ho. destruct cap as [fps cnt wd ht reads].
  destruct (split_reads reads) as [fs [stop [-> Hs]]].
  rewrite (extract_frames_streaming_frames_nz ex tmp data q k fps cnt wd ht fs stop w
             ltac:(lia) Hs Ho).
  rewrite (extract_frames_streaming_frames_nz ex tmp data q (- k - 2) fps cnt wd ht fs stop w
             ltac:(lia) Hs Ho).
  replace (multiples_of (- k - 2 + 1) (enum_from 0 fs)) with (multiples_of (k + 1) (enum_from 0 fs)).
  2: { unfold multiples_of. apply filter_ext. intros [i f].
       replace (- k - 2 + 1) with (- (k + 1)) by lia. apply mod_zero_opp. lia. }
  eexists _, _, _, _. split; [reflexivity|]. split; [reflexivity|].
  split; [reflexivity|]. split; [reflexivity|].
  intros key Hkey. unfold json_get, assoc_get.
  repeat match goal with
         | |- context [String.eqb key ?k'] =>
             let E := fresh "E" in
             destruct (String.eqb key k') eqn:E; [try reflexivity|]
         end.
  - apply String.eqb_eq in E4. contradiction.
  - reflexivity.
Qed.

Lemma map_snd_enum_from {A : Type} (s : Z) (l : list A) : map snd (enum_from s l) = l.
Proof. revert s. induction l as [|x l IH]; intro s; cbn; [reflexivity|]. now rewrite IH. Qed.

(** X8: Fast mode with [max_frames = M >= 1] on a video whose container
    reports fewer than [M] frames (also [0] or a negative count when it
    cannot tell): [skip_factor] is [1], the archive holds the first
    [min(M, n)] of the [n] frames the decoder yields, and [frames[i]] has
    timestamp [i / fps]. *)
Theorem fast_short_count_prefix tmp data Mx q fps cnt wd ht fs stop w :
  1 <= Mx -> cnt < Mx -> (stop = [] \/ exists r, stop = None :: r) ->
  video_open data = Some (mkCapture fps cnt wd ht (map Some fs ++ stop)) ->
  exists meta w',
    extract_frames_fast tmp data Mx q w =
      (Ok (fast_entries q (enum_from 0 (firstn (Z.to_nat Mx) fs)) ++
           [("metadata.json", PJson meta)]), w')
    /\ json_get "extracted_frames" meta = Some (JInt (Z.min Mx (Z.of_nat (List.length fs))))
    /\ json_get "frames" meta =
         Some (JArr (map (fast_frame_record fps 1)
                         (py_range (Z.min Mx (Z.of_nat (List.length fs)))))).
Proof.
  intros HM Hc Hstop Hopen.
  pose proof (extract_frames_fast_frames tmp data Mx q fps cnt wd ht fs stop w HM Hstop Hopen)
    as H. cbv zeta in H. destruct H as [w' [E _]].
  assert (Hsf : Z.max 1 (cnt / Mx) = 1).
  { apply Z.max_l. assert (cnt / Mx < 1) by (apply Z.div_lt_upper_bound; lia). lia. }
  rewrite Hsf, multiples_of_one, map_snd_enum_from, length_enum_from in E.
  replace (Z.of_nat (Nat.min (Z.to_nat Mx) (List.length fs)))
    with (Z.min Mx (Z.of_nat (List.length fs))) in E by lia.
  eexists _, _. split; [exact E|]. split; reflexivity.
Qed.

(** ** The batches of the exhaustive loop *)

(** X9: The exhaustive loop never holds 50 or more kept frames waiting to be
    encoded, and it adds frame entries to the archive only in whole batches
    of 50 (the last, smaller batch is flushed after the loop). *)
Theorem streaming_batch_bound ex q k reads s w s' w' :
  (List.length (frame_batch s) < 50)%nat ->
  streaming_loop ex q k reads s w = (Ok s', w') ->
  (List.length (frame_batch s') < 50)%nat
  /\ exists m, List.length (zipf s') = (List.length (zipf s) + 50 * m)%nat.
Proof.
  revert s w. induction reads as [|[f|] reads IH]; intros s w Hb H.
  - cbn in H. injection H as <- _. split; [exact Hb|]. exists 0%nat. lia.
  - cbn [streaming_loop bind tick lift] in H. unfold py_mod in H.
    destruct (k + 1 =? 0); [discriminate|].
    destruct (frame_idx s mod (k + 1) =? 0).
    + destruct (Z.of_nat (List.length (frame_batch s ++ [(extracted_count s, f)])) >=? batch_size)
        eqn:E.
      * cbn [run_in_executor ret] in H. apply IH in H; cbn [frame_batch zipf] in H |- *;
          [|cbn; lia].
        destruct H as [H1 [m Hm]]. split; [exact H1|]. exists (S m).
        rewrite Hm, length_app. unfold process_frame_batch. rewrite length_map.
        rewrite length_app in E |- *. cbn [List.length] in E |- *.
        unfold batch_size in E. apply Z.geb_le in E. lia.
      * cbn [ret] in H. apply IH in H; cbn [frame_batch zipf] in H |- *.
        -- exact H.
        -- rewrite length_app. cbn [List.length]. unfold batch_size in E.
           rewrite Z.geb_leb, Z.leb_gt in E. rewrite length_app in E. cbn [List.length] in E. lia.
    + cbn [ret] in H. apply IH in H; cbn [frame_batch zipf] in H |- *; [exact H | exact Hb].
  - cbn in H. injection H as <- _. split; [exact Hb|]. exists 0%nat. lia.
Qed.

(** ** What the endpoints do to the file system *)

Lemma streaming_loop_files ex q k reads : forall s w,
  files (snd (streaming_loop ex q k reads s w)) = files w.
Proof.
  induction reads as [|[f|] reads IH]; intros s w; cbn [streaming_loop]; try reflexivity.
  unfold bind, tick, lift, run_in_executor, ret.
  destruct (py_mod (frame_idx s) (k + 1)) as [r|e]; [|reflexivity].
  destruct (r =? 0); [destruct (_ >=? batch_size)|]; cbn beta iota zeta; rewrite IH; reflexivity.
Qed.

Lemma fast_loop_files q Mx sf reads : forall idx c z w,
  files (snd (fast_loop q Mx sf reads idx c z w)) = files w.
Proof.
  induction reads as [|[f|] reads IH]; intros idx c z w; cbn [fast_loop]; try reflexivity.
  unfold bind, tick, lift, ret.
  destruct (c >=? Mx); [reflexivity|].
  destruct (py_mod idx sf) as [r|e]; [|reflexivity].
  destruct (r =? 0); cbn beta iota zeta; rewrite IH; reflexivity.
Qed.

(** X10: Whatever the outcome (archive, [HTTPException], [ZeroDivisionError]),
    the only change either endpoint makes to the file system is that the
    temporary path no longer exists: every other file is left as it was. *)
Theorem endpoints_touch_only_temp_file :
  (forall ex tmp data q k w,
     files (snd (extract_frames_streaming ex tmp data q k w)) = remove_path tmp (files w))
  /\ (forall tmp data Mx q w,
     files (snd (extract_frames_fast tmp data Mx q w)) = remove_path tmp (files w)).
Proof.
  split.
  - intros ex tmp data q k w. unfold extract_frames_streaming. unfold bind at 1.
    cbn [write_file]. rewrite try_finally_cleanup. cbn [snd files].
    match goal with
    | |- context [snd (?b ?w0)] => assert (Hb : files (snd (b w0)) = files w0)
    end.
    { unfold bind at 1. rewrite open_written.
      destruct (video_open data) as [cap|]; [|reflexivity].
      unfold bind at 1.
      pose proof (streaming_loop_files ex q k (cap_reads cap) (mkLoopState 0 0 [] [])
                    (mkWorld ((tmp, data) :: remove_path tmp (files w)) (decoded w))) as HF.
      destruct (streaming_loop _ _ _ _ _ _) as [[s'|e] w2]; cbn [snd] in HF; [|exact HF].
      unfold bind at 1. rewrite flush_remaining. exact HF. }
    rewrite Hb. apply remove_path_written.
  - intros tmp data Mx q w. unfold extract_frames_fast. unfold bind at 1.
    cbn [write_file]. rewrite try_finally_cleanup. cbn [snd files].
    match goal with
    | |- context [snd (?b ?w0)] => assert (Hb : files (snd (b w0)) = files w0)
    end.
    { unfold bind at 1. rewrite open_written.
      destruct (video_open data) as [cap|]; [|reflexivity].
      unfold py_floordiv. destruct (Mx =? 0); [reflexivity|].
      unfold bind. cbn [lift]. cbn beta iota.
      pose proof (fast_loop_files q Mx (Z.max 1 (cap_frame_count cap / Mx)) (cap_reads cap) 0 0 []
                    (mkWorld ((tmp, data) :: remove_path tmp (files w)) (decoded w))) as HF.
      destruct (fast_loop _ _ _ _ _ _ _ _) as [[[c' z']|e] w2]; exact HF. }
    rewrite Hb. apply remove_path_written.
Qed.

(** ** The responses *)

(** X11: The response of each route: when the archive is built, the body is
    served as [application/zip] with a [Content-Disposition] naming
    [<stem>_frames.zip] (resp. [<stem>_frames_fast.zip]); its chunks put
    together are exactly the bytes of the zip, each chunk has 1 to 8192
    (resp. 16384) bytes, and every chunk but the last is full. When the
    archive is not built, the route fails with the same exception. *)
Theorem route_responses filename tmp data q k Mx w :
  (match extract_frames_zip tmp data q k w with
   | (Ok arch, w') =>
       exists body,
         extract_frames_zip_response filename tmp data q k w =
           (Ok (mkResponse body "application/zip"
                  [("Content-Disposition",
                    String.append "attachment; filename="
                      (String.append (path_stem filename) "_frames.zip"))]), w')
         /\ List.concat body = zip_serialize 6 arch
         /\ Forall (fun c => (0 < List.length c <= 8192)%nat) body
         /\ Forall (fun c => List.length c = 8192%nat) (removelast body)
   | (Err e, w') => extract_frames_zip_response filename tmp data q k w = (Err e, w')
   end)
  /\ (match extract_frames_fast tmp data Mx q w with
   | (Ok arch, w') =>
       exists body,
         extract_frames_fast_response filename tmp data Mx q w =
           (Ok (mkResponse body "application/zip"
                  [("Content-Disposition",
                    String.append "attachment; filename="
                      (String.append (path_stem filename) "_frames_fast.zip"))]), w')
         /\ List.concat body = zip_serialize 1 arch
         /\ Forall (fun c => (0 < List.length c <= 16384)%nat) body
         /\ Forall (fun c => List.length c = 16384%nat) (removelast body)
   | (Err e, w') => extract_frames_fast_response filename tmp data Mx q w = (Err e, w')
   end).
Proof.
  split.
  - destruct (extract_frames_zip tmp data q k w) as [[arch|e] w'] eqn:E;
      unfold extract_frames_zip_response, bind; rewrite E; [|reflexivity].
    eexists. split; [reflexivity|].
    apply generate_from_start. apply Nat.ltb_lt. reflexivity.
  - destruct (extract_frames_fast tmp data Mx q w) as [[arch|e] w'] eqn:E;
      unfold extract_frames_fast_response, bind; rewrite E; [|reflexivity].
    eexists. split; [reflexivity|].
    apply generate_from_start. apply Nat.ltb_lt. reflexivity.
Qed.

(** X12: [Path(file.filename).stem], the name of the download: for an upload
    named [b.e], possibly behind directories ([dir/b.e]), where [b] and [e]
    are not empty, neither contains ['/'] and [e] contains no ['.'], the
    stem is [b]. *)
Theorem upload_stem dir b e :
  b <> "" -> e <> "" -> str_mem "/"%char b = false -> str_mem "/"%char e = false ->
  str_mem "."%char e = false ->
  path_stem (String.append b (String "."%char e)) = b
  /\ path_stem (String.append dir (String "/"%char (String.append b (String "."%char e)))) = b.
Proof.
  intros Hb He Hbs Hes Hed.
  assert (Hnm : String.append b (String "."%char e) <> "").
  { destruct b; discriminate. }
  assert (Hdot : String.append b (String "."%char e) <> ".").
  { intro H. apply (f_equal String.length) in H. rewrite string_length_append in H.
    cbn in H. destruct b; [contradiction|]. cbn in H. lia. }
  assert (Hsl : str_mem "/"%char (String.append b (String "."%char e)) = false).
  { rewrite str_mem_app. cbn. now rewrite Hbs, Hes. }
  destruct (path_name_last dir _ Hnm Hdot Hsl) as [H1 H2].
  split; apply (path_stem_name _ b e Hb He Hed); assumption.
Qed.

End Server.

(** * Concrete runs

    Frames are integers tagged with their source index, the encoder returns
    the frame unchanged, and the decoder opens only the upload [1]. *)

Definition tag_encode (quality optimize : Z) (f : Z) : Z := f.

Definition frames_upto (n : nat) : list Z := map Z.of_nat (seq 0 n).

Definition decoder (c : @capture Z) (d : nat) : option (@capture Z) :=
  if Nat.eqb d 1 then Some c else None.

Definition world0 : @world nat := mkWorld [("upload.mp4", 2%nat)] 0.

Lemma streaming_skip_policy_witness :
  let fs := frames_upto 7 in
  let video_open := decoder (mkCapture 10 7 640 480 (map Some fs)) in
  0 <= 1 /\ video_open 1%nat = Some (mkCapture 10 7 640 480 (map Some fs)) /\
  (let kept := multiples_of (1 + 1) (enum_from 0 fs) in
   (exists meta w',
      extract_frames_streaming tag_encode video_open executor_default "tmp" 1%nat 70 1 world0 =
        (Ok (process_frame_batch tag_encode (enum_from 0 (map snd kept)) 70 ++
             [("metadata.json", PJson meta)]), w')
      /\ json_get "extracted_frames" meta = Some (JInt (Z.of_nat (List.length kept))))
   /\ (forall i, In i (map fst kept) <->
                 0 <= i < Z.of_nat (List.length fs) /\ i mod (1 + 1) = 0)
   /\ map fst (enum_from 0 (map snd kept)) = zrange_from 0 (List.length kept)
   /\ (1 = 0 -> List.length kept = List.length fs)).
Proof.
  intros fs video_open. split; [lia|]. split; [reflexivity|].
  apply (streaming_skip_policy tag_encode video_open executor_default "tmp" 1%nat 70 1
           10 7 640 480 fs world0); [lia | reflexivity].
Defined.

Lemma fast_budget_policy_witness :
  let fs := frames_upto 7 in
  let video_open := decoder (mkCapture 10 7 640 480 (map Some fs)) in
  1 <= 3 /\ Z.of_nat (List.length fs) = 7
  /\ video_open 1%nat = Some (mkCapture 10 7 640 480 (map Some fs)) /\
  (let skip_factor := Z.max 1 (7 / 3) in
   let kept := multiples_of skip_factor (enum_from 0 fs) in
   let n := Z.min 3 ((7 + skip_factor - 1) / skip_factor) in
   (exists meta w',
      extract_frames_fast tag_encode video_open "tmp" 1%nat 3 60 world0 =
        (Ok (fast_entries tag_encode 60 (enum_from 0 (firstn (Z.to_nat n) (map snd kept))) ++
             [("metadata.json", PJson meta)]), w')
      /\ json_get "extracted_frames" meta = Some (JInt n))
   /\ (forall i, In i (map fst kept) <-> 0 <= i < 7 /\ i mod skip_factor = 0)).
Proof.
  intros fs video_open. split; [lia|]. split; [reflexivity|]. split; [reflexivity|].
  apply (fast_budget_policy tag_encode video_open "tmp" 1%nat 3 60 10 7 640 480 fs world0);
    [lia | reflexivity | reflexivity].
Defined.

Lemma streaming_scenario_100_frames_witness :
  let fs := frames_upto 100 in
  let video_open := decoder (mkCapture 10 100 640 480 (map Some fs)) in
  List.length fs = 100%nat
  /\ video_open 1%nat = Some (mkCapture 10 100 640 480 (map Some fs)) /\
  (let kept := multiples_of 2 (enum_from 0 fs) in
   map fst kept = map (fun j => 2 * j) (zrange_from 0 50)
   /\ exists meta w',
        extract_frames_streaming tag_encode video_open executor_default "tmp" 1%nat 70 1 world0 =
          (Ok (process_frame_batch tag_encode (enum_from 0 (map snd kept)) 70 ++
               [("metadata.json", PJson meta)]), w')
        /\ List.length (process_frame_batch tag_encode (enum_from 0 (map snd kept)) 70) = 50%nat
        /\ json_get "extracted_frames" meta = Some (JInt 50)
        /\ json_get "fps" meta = Some (JFloat 10)
        /\ json_get "frames" meta = None).
Proof.
  intros fs video_open. split; [reflexivity|]. split; [reflexivity|].
  apply (streaming_scenario_100_frames tag_encode video_open executor_default "tmp" 1%nat 70
           640 480 fs world0); reflexivity.
Defined.

Lemma fast_frames_metadata_witness :
  let cap := mkCapture 10 7 640 480 (map Some (frames_upto 7)) in
  let video_open := decoder cap in
  1 <= 3 /\ video_open 1%nat = Some cap /\
  (let fps := cap_fps cap in
   let skip_factor := Z.max 1 (cap_frame_count cap / 3) in
   (exists fes meta n w',
      extract_frames_fast tag_encode video_open "tmp" 1%nat 3 60 world0 =
        (Ok (fes ++ [("metadata.json", PJson meta)]), w')
      /\ Z.of_nat (List.length fes) = n
      /\ json_get "extracted_frames" meta = Some (JInt n)
      /\ json_get "frames" meta =
           Some (JArr (map (fun i =>
                              JObj [("frame_index", JInt i);
                                    ("timestamp",
                                     JFloat (if Qle_bool fps 0 then 0
                                             else inject_Z (i * skip_factor) / fps));
                                    ("filename", JStr (frame_name 4 i))])
                           (zrange_from 0 (Z.to_nat n)))))
   /\ (forall data' (fps' : Q) wd ht fs,
         List.length fs = 1000%nat -> (0 < fps')%Q ->
         video_open data' = Some (mkCapture fps' 1000 wd ht (map Some fs)) ->
         exists fes meta w',
           extract_frames_fast tag_encode video_open "tmp" data' 100 60 world0 =
             (Ok (fes ++ [("metadata.json", PJson meta)]), w')
           /\ List.length fes = 100%nat
           /\ json_get "extracted_frames" meta = Some (JInt 100)
           /\ frame_timestamp meta 5 = Some (JFloat (inject_Z 50 / fps')))).
Proof.
  intros cap video_open. split; [lia|]. split; [reflexivity|].
  apply (fast_frames_metadata tag_encode video_open "tmp" 1%nat 3 60 cap world0);
    [lia | reflexivity].
Defined.

Lemma midstream_failure_is_end_of_stream_witness :
  let fs := frames_upto 5 in
  let rest := [Some 99] in
  let video_open := decoder (mkCapture 10 6 640 480 (map Some fs ++ None :: rest)) in
  0 <= 1 /\ 1 <= 2
  /\ video_open 1%nat = Some (mkCapture 10 6 640 480 (map Some fs ++ None :: rest)) /\
  (exists meta w',
     extract_frames_streaming tag_encode video_open executor_default "tmp" 1%nat 70 1 world0 =
       (Ok (process_frame_batch tag_encode
              (enum_from 0 (map snd (multiples_of (1 + 1) (enum_from 0 fs)))) 70
            ++ [("metadata.json", PJson meta)]), w')
     /\ decoded w' = (List.length fs + S (decoded world0))%nat)
  /\ (exists meta w',
     extract_frames_fast tag_encode video_open "tmp" 1%nat 2 60 world0 =
       (Ok (fast_entries tag_encode 60 (enum_from 0 (firstn (Z.to_nat 2)
              (map snd (multiples_of (Z.max 1 (6 / 2)) (enum_from 0 fs))))) ++
            [("metadata.json", PJson meta)]), w')
     /\ (decoded w' <= List.length fs + S (decoded world0))%nat).
Proof.
  intros fs rest video_open. split; [lia|]. split; [lia|]. split; [reflexivity|].
  apply (midstream_failure_is_end_of_stream tag_encode video_open executor_default "tmp" 1%nat
           70 1 2 10 6 640 480 fs rest world0); [lia | lia | reflexivity].
Defined.

Lemma unvalidated_parameters_witness :
  let cap := mkCapture 10 3 640 480 (map Some (frames_upto 3)) in
  let video_open := decoder cap in
  video_open 1%nat = Some cap /\
  (exists w', extract_frames_fast tag_encode video_open "tmp" 1%nat 0 60 world0 =
                (Err ZeroDivisionError, w')
              /\ ~ In "tmp" (map fst (files w')))
  /\ (forall f rest, cap_reads cap = Some f :: rest ->
      exists w', extract_frames_streaming tag_encode video_open executor_default "tmp" 1%nat 70 (-1) world0
                   = (Err ZeroDivisionError, w')
                 /\ ~ In "tmp" (map fst (files w')))
  /\ (forall rest, cap_reads cap = [] \/ cap_reads cap = None :: rest ->
      exists meta w',
        extract_frames_streaming tag_encode video_open executor_default "tmp" 1%nat 70 (-1) world0
          = (Ok [("metadata.json", PJson meta)], w')
        /\ ~ In "tmp" (map fst (files w'))).
Proof.
  intros cap video_open. split; [reflexivity|].
  apply (unvalidated_parameters tag_encode video_open executor_default "tmp" 1%nat 70 cap world0).
  reflexivity.
Defined.

(** C6 (code bug). Fast mode reads the next frame before it tests the cap:
    on a 3-frame video with [max_frames = 1] ([skip_factor = 3]) frame 0 is
    kept, and the decoder is still asked for frame 1 before the loop stops,
    so two frames are decoded where one was needed. The archive holds the
    single kept frame, so the count of kept frames stays within the cap. *)
Theorem fast_reads_one_frame_past_cap :
  let video_open := decoder (mkCapture 10 3 640 480 (map Some (frames_upto 3))) in
  exists meta,
    extract_frames_fast tag_encode video_open "tmp" 1%nat 1 60 world0 =
      (Ok [("frame_0000.jpg", PBytes 0); ("metadata.json", PJson meta)],
       mkWorld [("upload.mp4", 2%nat)] 2).
Proof.
  intros video_open. eexists. vm_compute. reflexivity.
Qed.

(** C7 refuted: on the 100-frame, 10 fps video with [skip_frames = 1] the
    exhaustive metadata has no [frames] array, so [frames[1].timestamp] is
    absent instead of [0.2]. *)
Lemma streaming_scenario_no_frames_timestamp :
  let video_open := decoder (mkCapture 10 100 640 480 (map Some (frames_upto 100))) in
  match fst (extract_frames_streaming tag_encode video_open executor_default "tmp" 1%nat 70 1 world0) with
  | Ok arch =>
      match zip_read "metadata.json" arch with
      | Some (PJson meta) => frame_timestamp meta 1
      | _ => None
      end
  | Err _ => None
  end <> Some (JFloat (2 # 10)%Q).
Proof.
  intros video_open H. vm_compute in H. discriminate H.
Qed.

(** C10 refuted: exhaustive mode with [skip_frames = -1] on a video that
    opens but yields no frame never evaluates the modulo and succeeds with
    an archive, instead of failing with an arithmetic error. *)
Lemma skip_minus_one_without_frames_succeeds :
  let video_open := decoder (mkCapture 10 0 640 480 []) in
  exists arch,
    fst (extract_frames_streaming tag_encode video_open executor_default "tmp" 1%nat 70 (-1) world0)
    = Ok arch.
Proof.
  intros video_open. eexists. vm_compute. reflexivity.
Qed.

(** * Concrete runs of the further properties *)

Lemma fast_metadata_filenames_witness :
  let video_open := decoder (mkCapture 10 7 640 480 (map Some (frames_upto 7))) in
  exists arch w',
    extract_frames_fast tag_encode video_open "tmp" 1%nat 3 60 world0 = (Ok arch, w')
    /\ exists fes meta recs,
         arch = fes ++ [("metadata.json", PJson meta)]
         /\ json_get "frames" meta = Some (JArr recs)
         /\ map (json_get "filename") recs = map (fun e => Some (JStr (fst e))) fes
         /\ map (json_get "frame_index") recs =
              map (fun i => Some (JInt i)) (zrange_from 0 (List.length fes)).
Proof.
  intros video_open.
  set (r := extract_frames_fast tag_encode video_open "tmp" 1%nat 3 60 world0).
  exists (match fst r with Ok a => a | Err _ => [] end), (snd r).
  split; [vm_compute; reflexivity|].
  apply (fast_metadata_filenames tag_encode video_open "tmp" 1%nat 3 60 world0
           (match fst r with Ok a => a | Err _ => [] end) (snd r)).
  vm_compute. reflexivity.
Defined.

Lemma fast_archive_lookup_witness :
  let fs := frames_upto 7 in
  let video_open := decoder (mkCapture 10 7 640 480 (map Some fs)) in
  1 <= 3 /\ ([] : list (option Z)) = []
  /\ video_open 1%nat = Some (mkCapture 10 7 640 480 (map Some fs ++ [])) /\
  (let skip_factor := Z.max 1 (7 / 3) in
   exists arch meta n w',
     extract_frames_fast tag_encode video_open "tmp" 1%nat 3 60 world0 = (Ok arch, w')
     /\ zip_read "metadata.json" arch = Some (PJson meta)
     /\ json_get "extracted_frames" meta = Some (JInt n)
     /\ (forall i, 0 <= i < n -> exists f,
           nth_error fs (Z.to_nat (i * skip_factor)) = Some f
           /\ zip_read (frame_name 4 i) arch = Some (PBytes (tag_encode 60 0 f))
           /\ frame_timestamp meta (Z.to_nat i) =
                Some (JFloat (if Qle_bool 10 0 then 0
                              else inject_Z (i * skip_factor) / 10)))
     /\ (forall i, ~ (0 <= i < n) -> zip_read (frame_name 4 i) arch = None)).
Proof.
  intros fs video_open. split; [lia|]. split; [reflexivity|]. split; [reflexivity|].
  apply (fast_archive_lookup tag_encode video_open "tmp" 1%nat 3 60 10 7 640 480 fs [] world0);
    [lia | left; reflexivity | reflexivity].
Defined.

Lemma streaming_archive_lookup_witness :
  let fs := frames_upto 7 in
  let video_open := decoder (mkCapture 10 7 640 480 (map Some fs)) in
  0 <= 1 /\ ([] : list (option Z)) = []
  /\ video_open 1%nat = Some (mkCapture 10 7 640 480 (map Some fs ++ [])) /\
  (exists arch meta n w',
     extract_frames_streaming tag_encode video_open executor_default "tmp" 1%nat 70 1 world0
       = (Ok arch, w')
     /\ zip_read "metadata.json" arch = Some (PJson meta)
     /\ json_get "extracted_frames" meta = Some (JInt n)
     /\ (forall i, 0 <= i < n -> exists f,
           nth_error fs (Z.to_nat (i * (1 + 1))) = Some f
           /\ zip_read (frame_name 6 i) arch = Some (PBytes (tag_encode 70 1 f)))
     /\ (forall i, ~ (0 <= i < n) -> zip_read (frame_name 6 i) arch = None)).
Proof.
  intros fs video_open. split; [lia|]. split; [reflexivity|]. split; [reflexivity|].
  apply (streaming_archive_lookup tag_encode video_open executor_default "tmp" 1%nat 70 1
           10 7 640 480 fs [] world0);
    [lia | left; reflexivity | reflexivity].
Defined.

Lemma fast_decoding_budget_witness :
  let cap := mkCapture 10 100 640 480 (map Some (frames_upto 100)) in
  let video_open := decoder cap in
  1 <= 3 /\ video_open 1%nat = Some cap /\
  Z.of_nat (decoded (snd (extract_frames_fast tag_encode video_open "tmp" 1%nat 3 60 world0)))
    <= Z.of_nat (decoded world0) + (3 - 1) * Z.max 1 (cap_frame_count cap / 3) + 2.
Proof.
  intros cap video_open. split; [lia|]. split; [reflexivity|].
  apply (fast_decoding_budget tag_encode video_open "tmp" 1%nat 3 60 cap world0);
    [lia | reflexivity].
Defined.

Lemma fast_negative_max_frames_witness :
  let cap := mkCapture 10 7 640 480 (map Some (frames_upto 7)) in
  let video_open := decoder cap in
  -1 < 0 /\ video_open 1%nat = Some cap /\
  exists meta w',
    extract_frames_fast tag_encode video_open "tmp" 1%nat (-1) 60 world0
      = (Ok [("metadata.json", PJson meta)], w')
    /\ json_get "extracted_frames" meta = Some (JInt 0)
    /\ json_get "frames" meta = Some (JArr [])
    /\ decoded w' = S (decoded world0)
    /\ files w' = remove_path "tmp" (files world0).
Proof.
  intros cap video_open. split; [lia|]. split; [reflexivity|].
  apply (fast_negative_max_frames tag_encode video_open "tmp" 1%nat (-1) 60 cap world0);
    [lia | reflexivity].
Defined.

Lemma negative_skip_frames_mirror_witness :
  let cap := mkCapture 10 7 640 480 (map Some (frames_upto 7)) in
  let video_open := decoder cap in
  -3 <= -2 /\ video_open 1%nat = Some cap /\
  exists fes meta meta' w',
    extract_frames_streaming tag_encode video_open executor_default "tmp" 1%nat 70 (-3) world0
      = (Ok (fes ++ [("metadata.json", PJson meta)]), w')
    /\ extract_frames_streaming tag_encode video_open executor_default "tmp" 1%nat 70 (- -3 - 2)
         world0 = (Ok (fes ++ [("metadata.json", PJson meta')]), w')
    /\ json_get "skip_frames" meta = Some (JInt (-3))
    /\ json_get "skip_frames" meta' = Some (JInt (- -3 - 2))
    /\ (forall key, key <> "skip_frames" -> json_get key meta = json_get key meta').
Proof.
  intros cap video_open. split; [lia|]. split; [reflexivity|].
  apply (negative_skip_frames_mirror tag_encode video_open executor_default "tmp" 1%nat 70 (-3)
           cap world0); [lia | reflexivity].
Defined.

Lemma fast_short_count_prefix_witness :
  let fs := frames_upto 5 in
  let video_open := decoder (mkCapture 10 2 640 480 (map Some fs)) in
  1 <= 3 /\ 2 < 3 /\ ([] : list (option Z)) = []
  /\ video_open 1%nat = Some (mkCapture 10 2 640 480 (map Some fs ++ [])) /\
  exists meta w',
    extract_frames_fast tag_encode video_open "tmp" 1%nat 3 60 world0 =
      (Ok (fast_entries tag_encode 60 (enum_from 0 (firstn (Z.to_nat 3) fs)) ++
           [("metadata.json", PJson meta)]), w')
    /\ json_get "extracted_frames" meta = Some (JInt (Z.min 3 (Z.of_nat (List.length fs))))
    /\ json_get "frames" meta =
         Some (JArr (map (fast_frame_record 10 1)
                         (py_range (Z.min 3 (Z.of_nat (List.length fs)))))).
Proof.
  intros fs video_open. split; [lia|]. split; [lia|]. split; [reflexivity|].
  split; [reflexivity|].
  apply (fast_short_count_prefix tag_encode video_open "tmp" 1%nat 3 60 10 2 640 480 fs []
           world0); [lia | lia | left; reflexivity | reflexivity].
Defined.

Lemma streaming_batch_bound_witness :
  let s := mkLoopState 0 0 [] [] in
  (List.length (frame_batch s) < 50)%nat /\
  exists s' w',
    streaming_loop tag_encode executor_default 70 0 (map Some (frames_upto 120)) s world0
      = (Ok s', w')
    /\ (List.length (frame_batch s') < 50)%nat
    /\ exists m, List.length (zipf s') = (List.length (zipf s) + 50 * m)%nat.
Proof.
  intros s. split; [apply Nat.ltb_lt; reflexivity|].
  set (r := streaming_loop tag_encode executor_default 70 0 (map Some (frames_upto 120)) s world0).
  exists (match fst r with Ok s' => s' | Err _ => s end), (snd r).
  split; [vm_compute; reflexivity|].
  apply (streaming_batch_bound tag_encode executor_default 70 0 (map Some (frames_upto 120))
           s world0 (match fst r with Ok s' => s' | Err _ => s end) (snd r)); [apply Nat.ltb_lt; reflexivity | vm_compute; reflexivity].
Defined.

Lemma upload_stem_witness :
  "clip" <> "" /\ "mp4" <> "" /\ str_mem "/"%char "clip" = false
  /\ str_mem "/"%char "mp4" = false /\ str_mem "."%char "mp4" = false /\
  path_stem (String.append "clip" (String "."%char "mp4")) = "clip"
  /\ path_stem (String.append "videos" (String "/"%char (String.append "clip" (String "."%char "mp4"))))
     = "clip".
Proof.
  split; [discriminate|]. split; [discriminate|]. split; [reflexivity|].
  split; [reflexivity|]. split; [reflexivity|].
  apply (upload_stem "videos" "clip" "mp4");
    [discriminate | discriminate | reflexivity | reflexivity | reflexivity].
Defined.
